(** * Smart-Attendance-System-DNN: a shallow embedding of the recognition
      and attendance pipeline

    The development follows the Python sources:

    - [utils/database.py]            -> [Module Database]
    - [utils/attendance_manager.py]  -> [Module Matcher] and [Module Ledger]
    - [utils/face_detector.py]       -> [Module FaceDetector]
    - [utils/embedder.py]            -> [Module Embedder]
    - [app.py]                       -> [Module App]

    Python objects are modelled by explicit state passing.  The files the
    program reads and writes (the pickle snapshot of the registry, the
    attendance CSV) are part of that state, together with the text printed on
    standard output.  What the libraries do (pandas reading a CSV column,
    scikit-learn comparing two vectors, NumPy converting a number, OpenCV,
    ONNX Runtime) enters as a variable of the section that embeds the calling
    code, with the type the call has in Python: a call that can raise returns
    an [outcome].  Python [float]s are IEEE-754 binary64 numbers and are
    modelled by Rocq's primitive floats, which are the same numbers; a NumPy
    [float32] is one of them. *)

From Stdlib Require Import ZArith Ascii Floats.
From stdpp Require Import base gmap list strings.

Local Open Scope Z_scope.

(** ** Outcomes of a Python call *)

(** The exceptions raised by the modelled code.  [SaveFailed] is the
    [Exception("Failed to save embedding: ...")] of [save_embedding],
    [InferenceFailed] the [Exception("Failed to generate embedding: ...")] of
    the embedder, and [EmptyDataError] is what [pd.read_csv] raises on a file
    of zero bytes. *)
Inductive exn : Type :=
  | ValueError (msg : string)
  | TypeError (msg : string)
  | EmptyDataError
  | SaveFailed
  | InferenceFailed
  | OSError.

(** A call either returns a value or raises. *)
Inductive outcome (A : Type) : Type :=
  | Return (a : A)
  | Raise (e : exn).
Arguments Return {A} a.
Arguments Raise {A} e.

(** ** Python strings *)

(** A Python [str] is a sequence of Unicode code points; it is modelled by
    its UTF-8 encoding, which is what a Rocq string literal holds.  A code
    point is one to four bytes, the first of which tells the length, so a
    whitespace character at either end of a string is recognised by its
    bytes. *)
Module PyStr.

(** The characters that [str.strip()] removes are those on which
    [str.isspace] answers [True].  On one byte: TAB..CR, FS..US and the
    blank. *)
Definition space1 (a : ascii) : bool :=
  let n := N_of_ascii a in
  ((9 <=? n) && (n <=? 13) || (28 <=? n) && (n <=? 32))%N.

(** On two bytes: U+0085 (C2 85) and U+00A0 (C2 A0). *)
Definition space2 (a b : ascii) : bool :=
  let '(x, y) := (N_of_ascii a, N_of_ascii b) in
  ((x =? 194) && ((y =? 133) || (y =? 160)))%N.

(** On three bytes: U+1680 (E1 9A 80), U+2000..U+200A (E2 80 80..8A),
    U+2028, U+2029 and U+202F (E2 80 A8, A9, AF), U+205F (E2 81 9F) and
    U+3000 (E3 80 80). *)
Definition space3 (a b c : ascii) : bool :=
  let '(x, y, z) := (N_of_ascii a, N_of_ascii b, N_of_ascii c) in
  ((x =? 225) && (y =? 154) && (z =? 128)
   || (x =? 226) && (y =? 128)
      && ((128 <=? z) && (z <=? 138) || (z =? 168) || (z =? 169) || (z =? 175))
   || (x =? 226) && (y =? 129) && (z =? 159)
   || (x =? 227) && (y =? 128) && (z =? 128))%N.

(** [s.lstrip()]: whitespace characters are dropped from the left until
    the string starts with another character. *)
Fixpoint lstrip (s : string) : string :=
  match s with
  | EmptyString => EmptyString
  | String a s1 =>
      if space1 a then lstrip s1
      else
        match s1 with
        | EmptyString => s
        | String b s2 =>
            if space2 a b then lstrip s2
            else
              match s2 with
              | EmptyString => s
              | String c s3 => if space3 a b c then lstrip s3 else s
              end
        end
  end.

(** The string is empty or [s.isspace()]: it is made of whitespace
    characters only. *)
Fixpoint all_space (s : string) : bool :=
  match s with
  | EmptyString => true
  | String a s1 =>
      if space1 a then all_space s1
      else
        match s1 with
        | EmptyString => false
        | String b s2 =>
            if space2 a b then all_space s2
            else
              match s2 with
              | EmptyString => false
              | String c s3 => space3 a b c && all_space s3
              end
        end
  end.

(** [s.rstrip()]: the string is cut where what follows is whitespace
    only.  No whitespace character starts with a continuation byte
    (80..BF), so the cut never falls inside a character. *)
Fixpoint rstrip (s : string) : string :=
  match s with
  | EmptyString => EmptyString
  | String a s1 => if all_space s then EmptyString else String a (rstrip s1)
  end.

(** [s.strip()] *)
Definition strip (s : string) : string := rstrip (lstrip s).

(** Truthiness of a [str]: the empty string is falsy. *)
Definition truthy (s : string) : bool :=
  match s with EmptyString => false | _ => true end.

End PyStr.

(** ** Python dictionaries *)

(** A [dict] with [str] keys keeps its entries in insertion order, and
    [find_match] iterates in that order, so a dictionary is the list of its
    items; a well-formed one has no key twice. *)
Module PyDict.
Section Dict.
Context {V : Type}.

(** [d.get(k)] *)
Fixpoint get (d : list (string * V)) (k : string) : option V :=
  match d with
  | [] => None
  | (k', v) :: d' => if decide (k' = k) then Some v else get d' k
  end.

(** [d[k] = v]: an existing key keeps its place, a new one goes last. *)
Fixpoint set (d : list (string * V)) (k : string) (v : V) : list (string * V) :=
  match d with
  | [] => [(k, v)]
  | (k', v') :: d' =>
      if decide (k' = k) then (k, v) :: d' else (k', v') :: set d' k v
  end.

(** [del d[k]] *)
Fixpoint del (d : list (string * V)) (k : string) : list (string * V) :=
  match d with
  | [] => []
  | (k', v') :: d' => if decide (k' = k) then d' else (k', v') :: del d' k
  end.

(** [k in d] *)
Definition mem (d : list (string * V)) (k : string) : bool :=
  bool_decide (k ∈ d.*1).

(** [list(d.keys())] *)
Definition keys (d : list (string * V)) : list string := d.*1.

Definition wf (d : list (string * V)) : Prop := NoDup d.*1.
End Dict.
End PyDict.

(** ** The embedding registry ([EmbeddingDatabase]) *)

Module Database.
Section Registry.
(** An embedding is a numpy array; the registry never looks inside. *)
Context {embedding : Type}.

(** What [self.embeddings_path] names: nothing, a file that [open] or
    [pickle.load] fails on (with the text of the exception), or the
    pickled dictionary. *)
Inductive pickle_file : Type :=
  | NoFile
  | Unreadable (why : string)
  | Snapshot (d : list (string * embedding)).

(** What happens at [with open(path, 'wb') as f: pickle.dump(d, f)].
    Opening for writing truncates the file, so there are three ways it can
    go: the dump completes; [open] fails and the file is as it was; or
    [open] succeeds and the dump fails, which leaves a file cut short, on
    which [pickle.load] fails with the text [residue]. *)
Inductive write_effect : Type :=
  | WriteOk
  | OpenFails
  | DumpFails (residue : string).

(** The surroundings of the object: the file, what a write does, and the
    lines printed so far. *)
Record env : Type := mkEnv {
  embeddings_path : pickle_file;
  on_write : write_effect;
  stdout : list string
}.

(** The object itself: [self.embeddings]. *)
Record db : Type := mkDb { embeddings : list (string * embedding) }.

Definition load_embeddings (w : env) (self : db)
  : list (string * embedding) * env * db :=
  match embeddings_path w with
  | Snapshot d => (d, w, mkDb d)
  | Unreadable why =>
      ([],
       mkEnv (embeddings_path w) (on_write w)
         (stdout w ++ ["Warning: Failed to load embeddings: " +:+ why]),
       mkDb [])
  | NoFile => ([], w, mkDb [])
  end.

(** The [with open(...)] block that writes [d]: whether it completed, and
    the surroundings afterwards. *)
Definition dump (d : list (string * embedding)) (w : env) : bool * env :=
  match on_write w with
  | WriteOk => (true, mkEnv (Snapshot d) (on_write w) (stdout w))
  | OpenFails => (false, w)
  | DumpFails residue => (false, mkEnv (Unreadable residue) (on_write w) (stdout w))
  end.

Definition save_embedding (name : option string) (embedding_ : option embedding)
    (w : env) (self : db) : outcome unit * env * db :=
  match name with
  | None => (Raise (ValueError "Name cannot be empty"), w, self)
  | Some raw =>
      if bool_decide (PyStr.strip raw = EmptyString)
      then (Raise (ValueError "Name cannot be empty"), w, self)
      else
        match embedding_ with
        | None => (Raise (ValueError "Embedding cannot be None"), w, self)
        | Some e =>
            let '(_, w1, self1) := load_embeddings w self in
            let self2 := mkDb (PyDict.set (embeddings self1) (PyStr.strip raw) e) in
            let '(written, w2) := dump (embeddings self2) w1 in
            if written then (Return (), w2, self2)
            else (Raise SaveFailed, w2, self2)
        end
  end.

Definition get_all_names (w : env) (self : db) : list string * env * db :=
  let '(_, w1, self1) := load_embeddings w self in
  (PyDict.keys (embeddings self1), w1, self1).

Definition get_embedding (name : string) (w : env) (self : db)
  : option embedding * env * db :=
  let '(_, w1, self1) := load_embeddings w self in
  (PyDict.get (embeddings self1) (PyStr.strip name), w1, self1).

(** The write of [delete_embedding] is not inside a [try]: what it raises
    reaches the caller ([OSError] stands for it). *)
Definition delete_embedding (name : string) (w : env) (self : db)
  : outcome bool * env * db :=
  let '(_, w1, self1) := load_embeddings w self in
  if PyDict.mem (embeddings self1) (PyStr.strip name) then
    let self2 := mkDb (PyDict.del (embeddings self1) (PyStr.strip name)) in
    let '(written, w2) := dump (embeddings self2) w1 in
    if written then (Return true, w2, self2)
    else (Raise OSError, w2, self2)
  else (Return false, w1, self1).

Definition get_count (w : env) (self : db) : nat * env * db :=
  let '(_, w1, self1) := load_embeddings w self in
  (length (embeddings self1), w1, self1).

End Registry.
Arguments pickle_file : clear implicits.
Arguments env : clear implicits.
Arguments db : clear implicits.
End Database.

(** ** The match engine ([AttendanceManager], matching half) *)

Module Matcher.
Import Database.
Section Scan.
Context {embedding : Type}.

(** [cosine_similarity(emb1, emb2)[0][0]] of scikit-learn on the two
    reshaped rows: it validates its input and raises (a [ValueError]) on a
    NaN or infinite entry or when the two rows differ in length.
    [one_minus] is [1 - similarity] as NumPy computes it in the precision
    of [similarity]. *)
Variable cosine_similarity : embedding → embedding → outcome float.
Variable one_minus : float → float.

(** The threshold, a Python [float], as NumPy compares it with a
    distance: converted to the type of the distance.  For [float32]
    embeddings that is the nearest binary32 number; for [float64] ones the
    threshold is unchanged. *)
Variable to_dtype : float → float.

(** What a call of [compare_embeddings] gives: a bare float, a pair, or
    the exception of the comparison. *)
Inductive compared : Type :=
  | Bare (x : float)
  | Pair (distance similarity : float)
  | Failed (e : exn).

Definition compare_embeddings (embedding1 embedding2 : option embedding) : compared :=
  match embedding1, embedding2 with
  | Some emb1, Some emb2 =>
      match cosine_similarity emb1 emb2 with
      | Return similarity => Pair (one_minus similarity) similarity
      | Raise e => Failed e
      end
  | _, _ => Bare 0%float
  end.

(** The [for] loop of [find_match] over [registered_embeddings.items()];
    unpacking a bare float raises [TypeError]. *)
Fixpoint scan (query_embedding : option embedding)
    (items : list (string * embedding))
    (best_match : option string) (best_distance : float)
  : outcome (option string * float) :=
  match items with
  | [] => Return (best_match, best_distance)
  | (name, e) :: rest =>
      match compare_embeddings query_embedding (Some e) with
      | Bare _ => Raise (TypeError "cannot unpack non-iterable float object")
      | Failed err => Raise err
      | Pair distance _ =>
          if (distance <? best_distance)%float
          then scan query_embedding rest (Some name) distance
          else scan query_embedding rest best_match best_distance
      end
  end.

(** Truthiness of [best_match], which is [None] or a [str]. *)
Definition truthy (best_match : option string) : bool :=
  match best_match with
  | Some name => PyStr.truthy name
  | None => false
  end.

(** [find_match]; [self_threshold] is [self.threshold].  The result
    [(None, None)] is the "no match" answer.  When [best_match] is set,
    [best_distance] is a distance, and the last comparison is NumPy's. *)
Definition find_match (query_embedding : option embedding)
    (threshold : option float) (self_threshold : float)
    (w : env embedding) (self : db embedding)
  : outcome (option string * option float) * env embedding * db embedding :=
  let threshold := default self_threshold threshold in
  let '(registered_embeddings, w1, self1) := load_embeddings w self in
  if bool_decide (length registered_embeddings = 0%nat)
  then (Return (None, None), w1, self1)
  else
    match scan query_embedding registered_embeddings None infinity with
    | Return (best_match, best_distance) =>
        if truthy best_match && (best_distance <? to_dtype threshold)%float
        then (Return (best_match, Some best_distance), w1, self1)
        else (Return (None, None), w1, self1)
    | Raise e => (Raise e, w1, self1)
    end.

End Scan.
End Matcher.

(** ** The attendance ledger ([AttendanceManager], ledger half) *)

Module Ledger.

(** One line of the CSV as it is written, fields [Name], [Date], [Time]. *)
Record record : Type := mkRecord { Name : string; Date : string; Time : string }.

Global Instance record_eq_dec : EqDecision record.
Proof. solve_decision. Defined.

(** What [self.attendance_csv] names on disk: nothing, a file of zero
    bytes (on which [pd.read_csv] raises [EmptyDataError]), or a header
    followed by lines. *)
Inductive csv_file : Type :=
  | Missing
  | ZeroBytes
  | Table (rows : list record).

(** The state the ledger methods read and write: the file and
    [self.marked_today]. *)
Record ledger : Type := mkLedger {
  attendance_csv : csv_file;
  marked_today : gset string
}.

(** The two readings of [datetime.now()] in [mark_attendance], formatted
    with [%Y-%m-%d] and [%H:%M:%S]. *)
Record clock : Type := mkClock { today : string; current_time : string }.

(** [df.to_csv(path, mode='a', header=..., index=False)] with a frame of one
    row: the header is written when the file is missing or empty. *)
Definition append_row (f : csv_file) (r : record) : csv_file :=
  match f with
  | Missing | ZeroBytes => Table [r]
  | Table rows => Table (rows ++ [r])
  end.

(** [self.marked_today.clear()] *)
Definition reset_session (st : ledger) : ledger :=
  mkLedger (attendance_csv st) ∅.

Section Reader.
(** [pd.read_csv] does not hand back the fields as they were written: it
    infers a type for each column.  A field is either kept as the [str]
    that was written, or read as something else (a number, a boolean, the
    missing value NaN); which one depends on the whole column.  [value] is
    the type of the values that are not [str]. *)
Context {value : Type}.

Inductive cell : Type :=
  | Text (s : string)
  | NotText (v : value).

(** pandas' inference on one column, given by its fields from top to
    bottom: for each field, [None] when it is kept as text, [Some v] when
    it is read as the value [v]. *)
Variable infer : list string → list (option value).

(** The cell read from field [i] of a column, where [s] was written. *)
Definition cell_at (fields : list string) (i : nat) (s : string) : cell :=
  match infer fields !! i with
  | Some (Some v) => NotText v
  | _ => Text s
  end.

(** A row of the [DataFrame]. *)
Record row : Type := mkRow { NameCell : cell; DateCell : cell; TimeCell : cell }.

(** [pd.read_csv(self.attendance_csv)] on a file with these lines. *)
Definition read_csv (rows : list record) : list row :=
  imap (λ i r, mkRow (cell_at (Name <$> rows) i (Name r))
                     (cell_at (Date <$> rows) i (Date r))
                     (cell_at (Time <$> rows) i (Time r))) rows.

(** [cell == s] for a [str] [s]: a cell that is not a [str] is not equal
    to one. *)
Definition eq_str (c : cell) (s : string) : bool :=
  match c with
  | Text s' => bool_decide (s' = s)
  | NotText _ => false
  end.

(** [df[(df['Name'] == name) & (df['Date'] == today)]] *)
Definition today_records (name day : string) (df : list row) : list row :=
  filter (λ r, eq_str (NameCell r) name && eq_str (DateCell r) day) df.

Definition mark_attendance (name : option string) (now : clock) (st : ledger)
  : outcome bool * ledger :=
  match name with
  | None => (Return false, st)
  | Some raw =>
      if bool_decide (PyStr.strip raw = EmptyString) then (Return false, st)
      else
        let name := PyStr.strip raw in
        if bool_decide (name ∈ marked_today st) then (Return false, st)
        else
          let append :=
            (Return true,
             mkLedger
               (append_row (attendance_csv st)
                  (mkRecord name (today now) (current_time now)))
               ({[name]} ∪ marked_today st)) in
          match attendance_csv st with
          | Missing => append
          | ZeroBytes => (Raise EmptyDataError, st)
          | Table rows =>
              let df := read_csv rows in
              if bool_decide (0 < length df)%nat then
                if bool_decide (0 < length (today_records name (today now) df))%nat
                then (Return false, st)
                else append
              else append
          end
  end.

End Reader.
Arguments cell : clear implicits.
Arguments row : clear implicits.
End Ledger.

(** ** The face locator ([FaceDetector]) *)

Module FaceDetector.

(** A row [x, y, w, h] of the [int32] array returned by the cascade. *)
Definition rect : Type := Z * Z * Z * Z.

(** Two's-complement wrap-around to 32 bits. *)
Definition int32 (z : Z) : Z := (z + 2 ^ 31) mod 2 ^ 32 - 2 ^ 31.

(** [lambda rect: rect[2] * rect[3]], a product of two [int32] scalars. *)
Definition area_key (r : rect) : Z :=
  let '(_, _, w, h) := r in int32 (w * h).

(** [max(iterable, key=...)]: the running maximum is replaced only by a
    strictly larger key, so the first maximal item wins. *)
Fixpoint max_from {A : Type} (key : A → Z) (best : A) (l : list A) : A :=
  match l with
  | [] => best
  | item :: l' => max_from key (if key best <? key item then item else best) l'
  end.

Section Detector.
Context {image : Type}.

(** OpenCV, taken as given: the grey-scale conversion, the cascade with
    its fixed parameters (scale factor 1.1, 5 neighbours, minimum size
    30x30), the slice [frame[y:y+h, x:x+w]] and [cv2.resize]. *)
Variable cvtColor_gray : image → image.
Variable detectMultiScale : image → list rect.
Variable crop : image → rect → image.
Variable resize : image → Z * Z → image.

Definition detect_face (frame : option image) : option image * option rect :=
  match frame with
  | None => (None, None)
  | Some frame =>
      let gray := cvtColor_gray frame in
      match detectMultiScale gray with
      | [] => (None, None)
      | first :: others =>
          let largest_face := max_from area_key first others in
          let face_roi := crop frame largest_face in
          let face_resized := resize face_roi (160, 160) in
          (Some face_resized, Some largest_face)
      end
  end.

End Detector.
End FaceDetector.


(** ** The embedding generator ([FaceEmbedder]) *)

Module Embedder.

(** One entry of [input_info.shape]: an [int], the name of a symbolic
    dimension (a [str]), or [None]. *)
Inductive dim : Type :=
  | Known (n : Z)
  | Symbolic (name : string)
  | Unknown.

Inductive layout : Type := CHW | HWC.

(** [self.input_format], [self.expected_height], [self.expected_width]. *)
Record config : Type := mkConfig {
  input_format : layout;
  expected_height : Z;
  expected_width : Z
}.

(** [d == 3 or d == 1]; a [str] or [None] equals neither. *)
Definition is_channels (d : dim) : bool :=
  match d with
  | Known n => (n =? 3) || (n =? 1)
  | Symbolic _ | Unknown => false
  end.

(** [d if d > 0 else fallback]; ordering a [str] or [None] against an [int]
    raises [TypeError], here [None]. *)
Definition positive_or (d : dim) (fallback : Z) : option Z :=
  match d with
  | Known n => Some (if 0 <? n then n else fallback)
  | Symbolic _ | Unknown => None
  end.

(** The body of the [try] after the session is created; [None] is an
    exception raised inside it. *)
Definition detect_format (input_shape : list dim) : option config :=
  if bool_decide (length input_shape = 4%nat) then
    match input_shape with
    | [_; d1; d2; d3] =>
        if is_channels d1 then
          h ← positive_or d2 368; w ← positive_or d3 368; Some (mkConfig CHW h w)
        else
          h ← positive_or d1 160; w ← positive_or d2 160; Some (mkConfig HWC h w)
    | _ => None
    end
  else Some (mkConfig CHW 368 368).

(** [FaceEmbedder.__init__]: [session] is the declared input shape, or
    [None] when creating the session or reading its inputs raised.  Every
    exception is caught and raised again as
    [Exception("Failed to load ONNX model ...")], here [None]. *)
Definition init (session : option (list dim)) : option config :=
  input_shape ← session; detect_format input_shape.


Section Inference.
Context {image tensor : Type}.

(** [self.preprocess_face], OpenCV and NumPy on the image; it is called
    before the [try], so what it raises reaches the caller as it is. *)
Variable preprocess_face : image → outcome tensor.

(** [self.session.run(...)[0][0]]: the output of the model for the one
    image of the batch, a vector of floats; or the exception of the run. *)
Variable session_run : tensor → outcome (list float).

(** [np.linalg.norm] of a vector, and the division of one entry by a
    number, as NumPy computes them in the type of the vector.  NumPy
    divides by zero with a warning, not an exception. *)
Variable linalg_norm : list float → float.
Variable true_divide : float → float → float.

(** [get_embedding]: every exception inside the [try] is raised again as
    [Exception("Failed to generate embedding: ...")]. *)
Definition get_embedding (face_image : option image) : outcome (list float) :=
  match face_image with
  | None => Raise (ValueError "Face image is None")
  | Some face =>
      match preprocess_face face with
      | Raise e => Raise e
      | Return preprocessed =>
          match session_run preprocessed with
          | Raise _ => Raise InferenceFailed
          | Return embedding =>
              Return ((λ x, true_divide x (linalg_norm embedding)) <$> embedding)
          end
      end
  end.

End Inference.
End Embedder.

(** ** The application ([app.py]): what the pages do with the core *)

Module App.
Import Ledger Database.

(** [st.session_state.last_match] and [st.session_state.last_match_time]. *)
Record session_state : Type := mkSession {
  last_match : option string;
  last_match_time : option float
}.

(** The message shown by [show_attendance] for one frame with a face. *)
Inductive feedback : Type :=
  | MarkedFor (name : string)
  | AlreadyMarkedToday (name : string)
  | AlreadyInSession (name : string)
  | NoMatchFound
  | ErrorProcessing (e : exn).

(** [matched_name != last_match or
     (last_match_time and (time.time() - last_match_time) > 5)]:
    [None] and [0.0] are falsy. *)
Definition retrigger (matched_name : string) (ss : session_state) (time_now : float) : bool :=
  negb (bool_decide (last_match ss = Some matched_name)) ||
  match last_match_time ss with
  | Some t0 => negb (t0 =? 0)%float && (5 <? time_now - t0)%float
  | None => false
  end.

(** One frame as the loop sees it. *)
Record frame : Type := mkFrame {
  matched_name : option string;
  time_check : float;
  time_mark : float;
  now : clock
}.

Section Pages.
Context {value : Type}.
Variable infer : list string → list (option value).

(** [show_attendance] from the result of [find_match] on: [time_check] and
    [time_mark] are the two readings of [time.time()], [now] is the clock
    read by [mark_attendance]. *)
Definition on_match (matched_name : option string) (time_check time_mark : float)
    (now : clock) (ss : session_state) (st : ledger)
  : feedback * session_state * ledger :=
  match matched_name with
  | Some name =>
      if PyStr.truthy name then
        if retrigger name ss time_check then
          match mark_attendance infer (Some name) now st with
          | (Return true, st') => (MarkedFor name, mkSession (Some name) (Some time_mark), st')
          | (Return false, st') => (AlreadyMarkedToday name, ss, st')
          | (Raise e, st') => (ErrorProcessing e, ss, st')
          end
        else (AlreadyInSession name, ss, st)
      else (NoMatchFound, mkSession None (last_match_time ss), st)
  | None => (NoMatchFound, mkSession None (last_match_time ss), st)
  end.

Definition on_frame (s : session_state * ledger) (f : frame) : session_state * ledger :=
  let '(_, ss, st) := on_match (matched_name f) (time_check f) (time_mark f) (now f) s.1 s.2 in
  (ss, st).

Definition on_frames (fs : list frame) (s : session_state * ledger)
  : session_state * ledger :=
  foldl on_frame s fs.

End Pages.

(** The message shown by [show_registration] when the button is pressed. *)
Inductive registration : Type :=
  | Registered (name : string)
  | FailedToRegister
  | PleaseEnterName.

(** [show_registration] from the button on: [embedding] is the outcome of
    [face_embedder.get_embedding(face_image)]. *)
Definition register_face {embedding : Type} (name : string) (embedding_ : outcome embedding)
    (w : env embedding) (self : db embedding)
  : registration * env embedding * db embedding :=
  if PyStr.truthy name && PyStr.truthy (PyStr.strip name) then
    match embedding_ with
    | Raise _ => (FailedToRegister, w, self)
    | Return e =>
        match save_embedding (Some (PyStr.strip name)) (Some e) w self with
        | (Return _, w', self') => (Registered (PyStr.strip name), w', self')
        | (Raise _, w', self') => (FailedToRegister, w', self')
        end
    end
  else (PleaseEnterName, w, self).

End App.

(** * Properties *)

(** ** Trimming *)

Module PyStrFacts.
Import PyStr.

(** What is left of [s] after one whitespace character at its start, if it
    starts with one. *)
Definition after_space (s : string) : option string :=
  match s with
  | EmptyString => None
  | String a s1 =>
      if space1 a then Some s1
      else
        match s1 with
        | EmptyString => None
        | String b s2 =>
            if space2 a b then Some s2
            else
              match s2 with
              | EmptyString => None
              | String c s3 => if space3 a b c then Some s3 else None
              end
        end
  end.

Lemma lstrip_unfold s :
  lstrip s = match after_space s with Some r => lstrip r | None => s end.
Proof.
  destruct s as [|a [|b [|c s3]]]; simpl; try done.
  - by destruct (space1 a).
  - destruct (space1 a); [done|]. by destruct (space2 a b).
  - destruct (space1 a); [done|]. destruct (space2 a b); [done|].
    by destruct (space3 a b c).
Qed.

Lemma all_space_unfold s :
  all_space s = match s with
                | EmptyString => true
                | _ => match after_space s with Some r => all_space r | None => false end
                end.
Proof.
  destruct s as [|a [|b [|c s3]]]; simpl; try done.
  - by destruct (space1 a).
  - destruct (space1 a); [done|]. by destruct (space2 a b).
  - destruct (space1 a); [done|]. destruct (space2 a b); [done|].
    by destruct (space3 a b c).
Qed.

Lemma rstrip_cons a s :
  rstrip (String a s) = if all_space (String a s) then EmptyString else String a (rstrip s).
Proof. reflexivity. Qed.

Lemma after_space_length s r :
  after_space s = Some r → (String.length r < String.length s)%nat.
Proof.
  destruct s as [|a [|b [|c s3]]]; simpl; try done.
  - destruct (space1 a); [|done]. intros [= <-]. simpl. lia.
  - destruct (space1 a); [intros [= <-]; simpl; lia|].
    destruct (space2 a b); [|done]. intros [= <-]. simpl. lia.
  - destruct (space1 a); [intros [= <-]; simpl; lia|].
    destruct (space2 a b); [intros [= <-]; simpl; lia|].
    destruct (space3 a b c); [|done]. intros [= <-]. simpl. lia.
Qed.

(** Induction along the characters stripped from the left. *)
Lemma after_space_ind (P : string → Prop) :
  (∀ s, (∀ r, after_space s = Some r → P r) → P s) → ∀ s, P s.
Proof.
  intros Hstep s.
  assert (H : ∀ n s, (String.length s < n)%nat → P s).
  { induction n as [|n IH]; intros s' Hlen; [lia|].
    apply Hstep. intros r Hr. apply IH.
    apply after_space_length in Hr. lia. }
  apply (H (S (String.length s))). lia.
Qed.

Lemma after_space_app r r' w :
  after_space r = Some r' → after_space (r +:+ w) = Some (r' +:+ w).
Proof.
  destruct r as [|a [|b [|c s3]]]; simpl; try done.
  - destruct (space1 a); [|done]. by intros [= <-].
  - destruct (space1 a); [by intros [= <-]|].
    destruct (space2 a b); [|done]. by intros [= <-].
  - destruct (space1 a); [by intros [= <-]|].
    destruct (space2 a b); [by intros [= <-]|].
    destruct (space3 a b c); [|done]. by intros [= <-].
Qed.

(** After [lstrip] the string does not start with a whitespace
    character. *)
Lemma after_space_lstrip s : after_space (lstrip s) = None.
Proof.
  induction s as [s IH] using after_space_ind.
  rewrite lstrip_unfold. destruct (after_space s) as [r|] eqn:Hr; [by apply IH|done].
Qed.

Lemma lstrip_id s : after_space s = None → lstrip s = s.
Proof. intros H. rewrite lstrip_unfold. by rewrite H. Qed.

Lemma lstrip_idem s : lstrip (lstrip s) = lstrip s.
Proof. apply lstrip_id, after_space_lstrip. Qed.

Lemma all_space_app x y : all_space x = true → all_space (x +:+ y) = all_space y.
Proof.
  induction x as [x IH] using after_space_ind. intros Hx.
  destruct x as [|a x']; [done|].
  rewrite all_space_unfold in Hx.
  destruct (after_space (String a x')) as [r|] eqn:Hr; [|done].
  rewrite all_space_unfold. change (String a x' +:+ y) with (String a (x' +:+ y)) in *.
  change (String a (x' +:+ y)) with (String a x' +:+ y).
  rewrite (after_space_app _ _ y Hr). simpl. by apply IH.
Qed.

(** [rstrip] cuts off an end made of whitespace. *)
Lemma rstrip_split s : ∃ w, s = rstrip s +:+ w ∧ all_space w = true.
Proof.
  induction s as [|a s IH]; [by exists EmptyString|].
  rewrite rstrip_cons. destruct (all_space (String a s)) eqn:Hb.
  - by exists (String a s).
  - destruct IH as (w & Hs & Hw). exists w. split; [|done].
    change (String a s = String a (rstrip s +:+ w)). by f_equal.
Qed.

Lemma rstrip_idem s : rstrip (rstrip s) = rstrip s.
Proof.
  induction s as [|a s IH]; [done|].
  rewrite rstrip_cons. destruct (all_space (String a s)) eqn:Hb; [done|].
  rewrite rstrip_cons, IH.
  destruct (all_space (String a (rstrip s))) eqn:Hb'; [|done].
  destruct (rstrip_split s) as (w & Hs & Hw).
  rewrite <- (all_space_app (String a (rstrip s)) w Hb') in Hw.
  change (String a (rstrip s) +:+ w) with (String a (rstrip s +:+ w)) in Hw.
  rewrite <- Hs in Hw. congruence.
Qed.

(** A string that does not start with a whitespace character still does
    not after [rstrip]. *)
Lemma after_space_rstrip s : after_space s = None → after_space (rstrip s) = None.
Proof.
  intros Hs. destruct (rstrip_split s) as (w & Heq & _).
  destruct (after_space (rstrip s)) as [r|] eqn:Hr; [|done].
  apply (after_space_app _ _ w) in Hr. rewrite <- Heq in Hr. congruence.
Qed.

(** Trimming a trimmed string changes nothing. *)
Lemma strip_idem s : strip (strip s) = strip s.
Proof.
  unfold strip.
  rewrite (lstrip_id (rstrip (lstrip s))).
  - apply rstrip_idem.
  - apply after_space_rstrip, after_space_lstrip.
Qed.

(** Whitespace beyond ASCII is trimmed as well: a no-break space (U+00A0)
    after the name, an ideographic space (U+3000) before it. *)
Example strip_no_break_space :
  strip (String "A" (String "n" (String "n" (String "194" (String "160" EmptyString)))))
  = String "A" (String "n" (String "n" EmptyString)).
Proof. reflexivity. Qed.

Example strip_ideographic_space :
  strip (String "227" (String "128" (String "128" (String "A" EmptyString))))
  = String "A" EmptyString.
Proof. reflexivity. Qed.

(** A character that is not whitespace stays, whatever its bytes: the
    letter U+00E9 is C3 A9. *)
Example strip_accent :
  strip (String "195" (String "169" (String " " EmptyString)))
  = String "195" (String "169" EmptyString).
Proof. reflexivity. Qed.

End PyStrFacts.

(** ** The ledger: one record per identity and day *)

Module LedgerFacts.
Import Ledger.

(** The pair that must be unique in the store. *)
Definition ident (r : record) : string * string := (Name r, Date r).

(** The store holds a line written for [name] and [day]. *)
Definition marked_on (name day : string) (f : csv_file) : Prop :=
  match f with
  | Table rows => (name, day) ∈ (ident <$> rows)
  | Missing | ZeroBytes => False
  end.

(** No two stored records share identity and date. *)
Definition unique_per_day (f : csv_file) : Prop :=
  match f with
  | Table rows => NoDup (ident <$> rows)
  | Missing | ZeroBytes => True
  end.

(** [pd.read_csv] succeeds on the store, or there is no store. *)
Definition readable (f : csv_file) : Prop := f ≠ ZeroBytes.

(** What a process does to the ledger. *)
Inductive call : Type :=
  | Mark (name : option string) (now : clock)
  | ResetSession.

Section ReaderFacts.
Context {value : Type}.
Variable infer : list string → list (option value).

Definition step (st : ledger) (c : call) : ledger :=
  match c with
  | Mark name now => (mark_attendance infer name now st).2
  | ResetSession => reset_session st
  end.

Definition run (calls : list call) (st : ledger) : ledger :=
  foldl step st calls.

(** Field [i] of a column is read back as the text that was written. *)
Definition kept_as_text (fields : list string) (i : nat) : Prop :=
  ∀ v, infer fields !! i ≠ Some (Some v).

(** The store holds a line written for [name] and [day] whose name and
    date are both read back as text: this is the record that the check of
    [mark_attendance] can find. *)
Definition found (name day : string) (f : csv_file) : Prop :=
  match f with
  | Table rows =>
      ∃ i r, rows !! i = Some r ∧ Name r = name ∧ Date r = day ∧
             kept_as_text (Name <$> rows) i ∧ kept_as_text (Date <$> rows) i
  | Missing | ZeroBytes => False
  end.

(** [s] is read back as text wherever it stands in a column: it is not
    the spelling of a number, of a boolean or of a missing value. *)
Definition textual (s : string) : Prop :=
  ∀ fields i, fields !! i = Some s → kept_as_text fields i.

Lemma eq_str_cell_at fields i s s' :
  eq_str (cell_at infer fields i s) s' = true ↔ s = s' ∧ kept_as_text fields i.
Proof.
  unfold cell_at, kept_as_text.
  destruct (infer fields !! i) as [[v|]|]; simpl.
  - split; [done|]. intros [_ H]. by destruct (H v).
  - rewrite bool_decide_eq_true. split; [by intros ->|by intros [-> _]].
  - rewrite bool_decide_eq_true. split; [by intros ->|by intros [-> _]].
Qed.

Lemma today_records_found name day rows :
  (0 < length (today_records name day (read_csv infer rows)))%nat ↔
  found name day (Table rows).
Proof.
  unfold today_records, read_csv, found. split.
  - intros Hlen.
    destruct (filter _ _) as [|x l] eqn:Hf; [simpl in Hlen; lia|].
    assert (Hx : x ∈ x :: l) by apply list_elem_of_here.
    rewrite <- Hf in Hx. apply list_elem_of_filter in Hx as [HP Hx].
    apply elem_of_lookup_imap in Hx as (i & r & -> & Hr).
    cbn [NameCell DateCell] in HP.
    apply andb_prop_elim in HP as [Hn Hd].
    apply Is_true_true, eq_str_cell_at in Hn as [Hn Hkn].
    apply Is_true_true, eq_str_cell_at in Hd as [Hd Hkd].
    by exists i, r.
  - intros (i & r & Hr & Hn & Hd & Hkn & Hkd).
    pose (x := mkRow (cell_at infer (Name <$> rows) i (Name r))
                     (cell_at infer (Date <$> rows) i (Date r))
                     (cell_at infer (Time <$> rows) i (Time r))).
    assert (Hx : x ∈ filter
              (λ r0, eq_str (NameCell r0) name && eq_str (DateCell r0) day)
              (imap (λ i r, mkRow (cell_at infer (Name <$> rows) i (Name r))
                              (cell_at infer (Date <$> rows) i (Date r))
                              (cell_at infer (Time <$> rows) i (Time r))) rows)).
    { apply list_elem_of_filter. split.
      - cbn [x NameCell DateCell]. apply andb_prop_intro. split; apply Is_true_true;
          by apply eq_str_cell_at.
      - apply elem_of_lookup_imap. by exists i, r. }
    destruct (filter _ _); [by apply elem_of_nil in Hx|simpl; lia].
Qed.

(** What the check finds was written. *)
Lemma found_marked_on name day f : found name day f → marked_on name day f.
Proof.
  destruct f as [| |rows]; simpl; [done|done|].
  intros (i & r & Hr & <- & <- & _). apply list_elem_of_fmap. exists r.
  split; [done|]. by eapply list_elem_of_lookup_2.
Qed.

(** What was written is found, for a name and a date that are read back as
    text. *)
Lemma marked_on_found name day f :
  textual name → textual day → marked_on name day f → found name day f.
Proof.
  intros Hn Hd. destruct f as [| |rows]; simpl; [done|done|].
  intros (r & [= -> ->] & Hin)%list_elem_of_fmap.
  apply list_elem_of_lookup_1 in Hin as [i Hi]. exists i, r.
  split_and!; [done|done|done| |].
  - apply Hn. by rewrite list_lookup_fmap, Hi.
  - apply Hd. by rewrite list_lookup_fmap, Hi.
Qed.

Lemma marked_on_append_row name day f r :
  marked_on name day (append_row f r) ↔
  marked_on name day f ∨ (Name r = name ∧ Date r = day).
Proof.
  assert (Hone : (name, day) ∈ [ident r] ↔ Name r = name ∧ Date r = day).
  { rewrite list_elem_of_singleton. unfold ident. split; [by intros [= -> ->]|].
    by intros [-> ->]. }
  destruct f as [| |rows]; cbn [append_row marked_on].
  - change (ident <$> [r]) with [ident r]. rewrite Hone. tauto.
  - change (ident <$> [r]) with [ident r]. rewrite Hone. tauto.
  - rewrite fmap_app, elem_of_app. change (ident <$> [r]) with [ident r].
    by rewrite Hone.
Qed.

(** The call that passes every check appends. *)
Lemma mark_attendance_marks raw now st :
  PyStr.strip raw ≠ EmptyString →
  PyStr.strip raw ∉ marked_today st →
  readable (attendance_csv st) →
  ¬ found (PyStr.strip raw) (today now) (attendance_csv st) →
  mark_attendance infer (Some raw) now st =
    (Return true,
     mkLedger
       (append_row (attendance_csv st)
          (mkRecord (PyStr.strip raw) (today now) (current_time now)))
       ({[PyStr.strip raw]} ∪ marked_today st)).
Proof.
  intros Hblank Hsession Hread Hnf. unfold mark_attendance.
  rewrite bool_decide_eq_false_2 by done.
  rewrite bool_decide_eq_false_2 by done.
  destruct (attendance_csv st) as [| |rows]; [done|done|].
  case_bool_decide; [|done].
  rewrite bool_decide_eq_false_2; [done|].
  by rewrite today_records_found.
Qed.

(** A record that the check finds ends the call, whatever the session
    holds. *)
Lemma mark_attendance_found raw now st :
  found (PyStr.strip raw) (today now) (attendance_csv st) →
  mark_attendance infer (Some raw) now st = (Return false, st).
Proof.
  intros Hf. unfold mark_attendance.
  case_bool_decide; [done|]. case_bool_decide; [done|].
  destruct (attendance_csv st) as [| |rows]; [done|done|].
  apply today_records_found in Hf.
  rewrite bool_decide_eq_true_2.
  - by rewrite bool_decide_eq_true_2.
  - unfold today_records in Hf.
    pose proof (length_filter
      (λ r, eq_str (NameCell r) (PyStr.strip raw) && eq_str (DateCell r) (today now))
      (read_csv infer rows)). lia.
Qed.

(** The branches of [mark_attendance], read off the code: the call changes
    nothing, or it passed every check and appended. *)
Lemma mark_attendance_cases name now st :
  (∃ o, mark_attendance infer name now st = (o, st) ∧ o ≠ Return true) ∨
  (∃ raw, name = Some raw ∧
     PyStr.strip raw ≠ EmptyString ∧
     (PyStr.strip raw ∉ marked_today st) ∧
     ¬ found (PyStr.strip raw) (today now) (attendance_csv st) ∧
     readable (attendance_csv st) ∧
     mark_attendance infer name now st =
       (Return true,
        mkLedger
          (append_row (attendance_csv st)
             (mkRecord (PyStr.strip raw) (today now) (current_time now)))
          ({[PyStr.strip raw]} ∪ marked_today st))).
Proof.
  unfold mark_attendance. destruct name as [raw|]; [|left; eauto].
  case_bool_decide as Hblank; [left; eauto|].
  case_bool_decide as Hsession; [left; eauto|].
  destruct (attendance_csv st) as [| |rows] eqn:Hcsv.
  - right. exists raw. unfold readable. naive_solver.
  - left. eauto.
  - case_bool_decide as Hlen.
    + case_bool_decide as Htoday; [left; eauto|].
      right. exists raw. unfold readable.
      split_and!; try done. by rewrite <- today_records_found.
    + right. exists raw. unfold readable.
      split_and!; try done. rewrite <- today_records_found.
      unfold today_records.
      pose proof (length_filter
        (λ r, eq_str (NameCell r) (PyStr.strip raw) && eq_str (DateCell r) (today now))
        (read_csv infer rows)). lia.
Qed.

Lemma append_row_unique f r :
  unique_per_day f → ¬ marked_on (Name r) (Date r) f →
  unique_per_day (append_row f r).
Proof.
  destruct f as [| |rows]; simpl; intros Hu Hn.
  - apply NoDup_singleton.
  - apply NoDup_singleton.
  - rewrite fmap_app. apply NoDup_app. split_and!; [done| |apply NoDup_singleton].
    intros k Hk [->|[]%elem_of_nil]%elem_of_cons. by apply Hn.
Qed.

(** The calls whose name and date are read back as text. *)
Definition textual_call (c : call) : Prop :=
  match c with
  | Mark (Some raw) now => textual (PyStr.strip raw) ∧ textual (today now)
  | Mark None _ | ResetSession => True
  end.

Lemma step_unique st c :
  textual_call c →
  unique_per_day (attendance_csv st) → unique_per_day (attendance_csv (step st c)).
Proof.
  intros Ht Hu. destruct c as [name now|]; [|done]. simpl.
  destruct (mark_attendance_cases name now st)
    as [(o & -> & _)|(raw & -> & _ & _ & Hn & _ & ->)]; [done|].
  destruct Ht as [Htn Htd].
  apply append_row_unique; [done|]. intros Hm. apply Hn. by apply marked_on_found.
Qed.

Lemma run_snoc calls c st : run (calls ++ [c]) st = step (run calls st) c.
Proof. unfold run. by rewrite foldl_app. Qed.

Lemma run_unique calls st :
  Forall textual_call calls →
  unique_per_day (attendance_csv st) → unique_per_day (attendance_csv (run calls st)).
Proof.
  intros Ht Hu. induction calls as [|c calls IH] using rev_ind; [done|].
  apply Forall_app in Ht as [Ht Hc]. rewrite run_snoc.
  apply step_unique; [by inversion Hc|by apply IH].
Qed.

(** C2. For an identity that is not blank once trimmed (the non-empty
    identity of the contract) and has not been marked yet, that is, it is
    not in [marked_today] and the store, which can be read, holds no line
    for it on the day: the first call returns [True]; a second call on the
    same date returns [False]; and after [reset_session] a call on another
    date, for which the store held no line of it either, returns [True]
    again.  This holds however pandas reads the columns back. *)
Theorem mark_attendance_twice (raw : string) (now1 now2 : clock) (st : ledger) :
  PyStr.strip raw ≠ EmptyString →
  PyStr.strip raw ∉ marked_today st →
  readable (attendance_csv st) →
  ¬ marked_on (PyStr.strip raw) (today now1) (attendance_csv st) →
  let first := mark_attendance infer (Some raw) now1 st in
  first.1 = Return true ∧
  (today now2 = today now1 →
     (mark_attendance infer (Some raw) now2 first.2).1 = Return false) ∧
  (today now2 ≠ today now1 →
     ¬ marked_on (PyStr.strip raw) (today now2) (attendance_csv st) →
     (mark_attendance infer (Some raw) now2 (reset_session first.2)).1 = Return true).
Proof.
  intros Hblank Hsession Hread Hday first. subst first.
  rewrite mark_attendance_marks; [|done|done|done|].
  2:{ intros Hf. by apply Hday, found_marked_on. }
  cbn [fst snd]. split_and!; [done| |].
  - intros _. unfold mark_attendance. cbn [marked_today].
    rewrite bool_decide_eq_false_2 by done.
    rewrite bool_decide_eq_true_2 by set_solver. done.
  - intros Hdate Hday2. rewrite mark_attendance_marks; [done|done| | |].
    + apply not_elem_of_empty.
    + unfold reset_session, readable. cbn [attendance_csv].
      by destruct (attendance_csv st).
    + unfold reset_session. cbn [attendance_csv].
      intros Hf%found_marked_on%marked_on_append_row.
      destruct Hf as [Hf|[_ Hf]]; [by apply Hday2|]. by apply Hdate.
Qed.

(** C4, as the code has it.  When the trimmed name is not in
    [marked_today] and the check finds a record of it for today in the
    store (a line written for the name and the date, both read back as
    text), [mark_attendance] returns [False] and changes nothing: the store
    and [marked_today] are as before. *)
Theorem mark_attendance_found_in_store (raw : string) (now : clock) (st : ledger) :
  PyStr.strip raw ≠ EmptyString →
  PyStr.strip raw ∉ marked_today st →
  found (PyStr.strip raw) (today now) (attendance_csv st) →
  mark_attendance infer (Some raw) now st = (Return false, st).
Proof. intros _ _. apply mark_attendance_found. Qed.

End ReaderFacts.

(** *** A reader for the concrete inputs *)

(** What the cells that are not text hold, in the columns below. *)
Inductive number_or_nan : Type :=
  | Number (n : N)
  | NaN.

(** The spellings that [pd.read_csv] takes for a missing value. *)
Definition na_values : list string :=
  ["#N/A"; "#N/A N/A"; "#NA"; "-1.#IND"; "-1.#QNAN"; "-NaN"; "-nan";
   "1.#IND"; "1.#QNAN"; "<NA>"; "N/A"; "NA"; "NULL"; "NaN"; "None";
   "n/a"; "nan"; "null"].

Definition digit (c : ascii) : option N :=
  let n := N_of_ascii c in
  if ((48 <=? n) && (n <=? 57))%N then Some (n - 48)%N else None.

Fixpoint digits (acc : N) (s : string) : option N :=
  match s with
  | EmptyString => Some acc
  | String c s' => d ← digit c; digits (10 * acc + d)%N s'
  end.

(** The number written by one to eighteen decimal digits. *)
Definition decimal (s : string) : option N :=
  if bool_decide (1 ≤ String.length s ≤ 18)%nat then digits 0 s else None.

(** pandas' inference on the columns used below, which hold names with a
    letter, numbers written in decimal digits and spellings of a missing
    value: a missing value is read as NaN; the other fields are read as
    integers when all of them are decimal numbers (so [007] is read as 7),
    and are kept as text as soon as one of them is not. *)
Definition reader (fields : list string) : list (option number_or_nan) :=
  let numeric :=
    forallb (λ s, bool_decide (s ∈ na_values) || bool_decide (is_Some (decimal s))) fields in
  (λ s, if bool_decide (s ∈ na_values) then Some NaN
        else if numeric then Number <$> decimal s
        else None) <$> fields.

Lemma reader_textual s : s ∉ na_values → decimal s = None → textual reader s.
Proof.
  intros Hna Hdec fields i Hi v. unfold reader.
  rewrite list_lookup_fmap, Hi. simpl.
  rewrite bool_decide_eq_false_2 by done. rewrite Hdec.
  by destruct (forallb _ _).
Qed.

(** *** On concrete inputs *)

(** The states used as concrete inputs below. *)
Definition fresh : ledger := mkLedger (Table []) ∅.
Definition nine : clock := mkClock "2024-01-01" "09:00:00".
Definition ten : clock := mkClock "2024-01-01" "10:00:00".
Definition next_day : clock := mkClock "2024-01-02" "09:00:00".
Definition alice_at_nine : record := mkRecord "Alice" "2024-01-01" "09:00:00".

Example strip_name : PyStr.strip "  Alice  " = "Alice".
Proof. reflexivity. Qed.

Example strip_tab_and_blank : PyStr.strip (String "009"%char " ") = EmptyString.
Proof. reflexivity. Qed.

Example mark_on_zero_bytes :
  mark_attendance reader (Some "Alice") nine (mkLedger ZeroBytes ∅)
  = (Raise EmptyDataError, mkLedger ZeroBytes ∅).
Proof. reflexivity. Qed.

Example mark_without_file :
  attendance_csv (mark_attendance reader (Some "Alice") nine (mkLedger Missing ∅)).2
  = Table [alice_at_nine].
Proof. reflexivity. Qed.

Example read_names : read_csv reader [alice_at_nine]
  = [mkRow (Text "Alice") (Text "2024-01-01") (Text "09:00:00")].
Proof. reflexivity. Qed.

Example read_numbers : NameCell <$> read_csv reader
    [mkRecord "123" "2024-01-01" "09:00:00"; mkRecord "007" "2024-01-01" "09:30:00"]
  = [NotText (Number 123); NotText (Number 7)].
Proof. reflexivity. Qed.

Example read_mixed : NameCell <$> read_csv reader
    [mkRecord "123" "2024-01-01" "09:00:00"; alice_at_nine;
     mkRecord "NA" "2024-01-01" "09:30:00"]
  = [Text "123"; Text "Alice"; NotText NaN].
Proof. reflexivity. Qed.

Lemma mark_attendance_twice_witness :
  (mark_attendance reader (Some " Alice ") nine fresh).1 = Return true ∧
  (mark_attendance reader (Some " Alice ") ten
     (mark_attendance reader (Some " Alice ") nine fresh).2).1 = Return false ∧
  (mark_attendance reader (Some " Alice ") next_day
     (reset_session (mark_attendance reader (Some " Alice ") nine fresh).2)).1 = Return true.
Proof.
  assert (Hblank : PyStr.strip " Alice " ≠ EmptyString) by (vm_compute; discriminate).
  assert (Hsession : PyStr.strip " Alice " ∉ marked_today fresh) by apply not_elem_of_empty.
  assert (Hread : readable (attendance_csv fresh)) by (vm_compute; discriminate).
  assert (Hday : ¬ marked_on (PyStr.strip " Alice ") (today nine) (attendance_csv fresh))
    by apply not_elem_of_nil.
  destruct (mark_attendance_twice reader " Alice " nine ten fresh Hblank Hsession Hread Hday)
    as (H1 & H2 & _).
  destruct (mark_attendance_twice reader " Alice " nine next_day fresh Hblank Hsession Hread Hday)
    as (_ & _ & H3).
  split_and!; [exact H1 | exact (H2 eq_refl) |].
  apply H3; [vm_compute; discriminate | apply not_elem_of_nil].
Defined.

Definition after_restart : ledger := mkLedger (Table [alice_at_nine]) ∅.

Lemma found_after_restart : found reader "Alice" "2024-01-01" (Table [alice_at_nine]).
Proof.
  exists 0%nat, alice_at_nine. split_and!; try reflexivity; intros v; vm_compute; discriminate.
Qed.

Lemma mark_attendance_found_in_store_witness :
  mark_attendance reader (Some "Alice") ten after_restart = (Return false, after_restart).
Proof.
  apply mark_attendance_found_in_store.
  - vm_compute; discriminate.
  - apply not_elem_of_empty.
  - exact found_after_restart.
Defined.

(** C4, as stated, fails: the record of Alice is found in the store, the
    call returns [False], and Alice is still not in [marked_today]. *)
Lemma mark_attendance_does_not_heal :
  found reader "Alice" (today ten) (attendance_csv after_restart) ∧
  ("Alice" ∉ marked_today after_restart) ∧
  (mark_attendance reader (Some "Alice") ten after_restart).1 = Return false ∧
  "Alice" ∉ marked_today (mark_attendance reader (Some "Alice") ten after_restart).2.
Proof.
  split_and!; [exact found_after_restart | apply not_elem_of_empty | reflexivity |].
  change (mark_attendance reader (Some "Alice") ten after_restart).2 with after_restart.
  apply not_elem_of_empty.
Qed.

(** The store after a first process marked "123" at nine. *)
Definition number_at_nine : record := mkRecord "123" "2024-01-01" "09:00:00".
Definition number_after_restart : ledger := mkLedger (Table [number_at_nine]) ∅.

(** C1, at a name written in digits.  A first process marks "123"; the
    store then holds one record and no pair twice.  A second process (its
    [marked_today] is empty) marks "123" again on the same day: [read_csv]
    reads the name column as integers, the comparison with the [str] "123"
    finds nothing, the call returns [True] and appends a second record with
    the same identity and date. *)
Theorem mark_attendance_numeric_name :
  attendance_csv (mark_attendance reader (Some "123") nine fresh).2
    = attendance_csv number_after_restart ∧
  unique_per_day (attendance_csv number_after_restart) ∧
  (mark_attendance reader (Some "123") ten number_after_restart).1 = Return true ∧
  attendance_csv (mark_attendance reader (Some "123") ten number_after_restart).2
    = Table [number_at_nine; mkRecord "123" "2024-01-01" "10:00:00"] ∧
  ¬ unique_per_day
      (attendance_csv (mark_attendance reader (Some "123") ten number_after_restart).2).
Proof.
  split_and!; [reflexivity| |reflexivity|reflexivity|].
  - apply NoDup_singleton.
  - change (attendance_csv (mark_attendance reader (Some "123") ten number_after_restart).2)
      with (Table [number_at_nine; mkRecord "123" "2024-01-01" "10:00:00"]).
    simpl. intros H. apply NoDup_cons in H as [H _]. apply H, list_elem_of_here.
Qed.

(** The same with a name that spells a missing value. *)
Example mark_attendance_na_name :
  (mark_attendance reader (Some "NA") ten
     (mkLedger (Table [mkRecord "NA" "2024-01-01" "09:00:00"]) ∅)).1 = Return true.
Proof. reflexivity. Qed.

(** With a second name that has a letter the column is text, and "123" is
    found. *)
Example mark_attendance_number_among_names :
  (mark_attendance reader (Some "123") ten
     (mkLedger (Table [number_at_nine; alice_at_nine]) ∅)).1 = Return false.
Proof. reflexivity. Qed.

End LedgerFacts.

(** ** The registry *)

Module DatabaseFacts.
Import Database.

Section DictFacts.
Context {V : Type}.
Implicit Types (d : list (string * V)) (k : string) (v : V).

Lemma get_set_same d k v : PyDict.get (PyDict.set d k v) k = Some v.
Proof.
  induction d as [|[k' v'] d IH]; simpl.
  - by rewrite decide_True.
  - destruct (decide (k' = k)) as [->|Hne]; simpl.
    + by rewrite decide_True.
    + by rewrite decide_False.
Qed.

Lemma get_set_other d k v k0 :
  k0 ≠ k → PyDict.get (PyDict.set d k v) k0 = PyDict.get d k0.
Proof.
  intros Hne. induction d as [|[k' v'] d IH]; simpl.
  - by rewrite decide_False.
  - destruct (decide (k' = k)) as [->|Hne']; simpl.
    + by rewrite !decide_False.
    + by rewrite IH.
Qed.

(** An overwrite keeps the keys as they are; an insertion adds the key at
    the end. *)
Lemma keys_set d k v :
  PyDict.keys (PyDict.set d k v) =
  if PyDict.mem d k then PyDict.keys d else PyDict.keys d ++ [k].
Proof.
  unfold PyDict.mem, PyDict.keys. induction d as [|[k' v'] d IH]; [done|].
  cbn [PyDict.set]. rewrite !fmap_cons. cbn [fst].
  destruct (decide (k' = k)) as [->|Hne]; rewrite ?fmap_cons; cbn [fst].
  - rewrite bool_decide_eq_true_2; [done|apply list_elem_of_here].
  - rewrite IH. case_bool_decide as Hin.
    + rewrite bool_decide_eq_true_2; [done|by apply list_elem_of_further].
    + rewrite bool_decide_eq_false_2; [done|].
      rewrite not_elem_of_cons. naive_solver.
Qed.

Lemma set_wf d k v : PyDict.wf d → PyDict.wf (PyDict.set d k v).
Proof.
  unfold PyDict.wf. intros Hwf.
  change (NoDup (PyDict.keys (PyDict.set d k v))). rewrite keys_set.
  unfold PyDict.mem, PyDict.keys. case_bool_decide as Hin; [done|].
  apply NoDup_app. split_and!; [done| |apply NoDup_singleton].
  intros k0 Hk0 ->%list_elem_of_singleton. done.
Qed.
End DictFacts.

Section RegistryFacts.
Context {embedding : Type}.
Implicit Types (w : env embedding) (self : db embedding).

(** The registry as a reader finds it on disk. *)
Definition on_disk w : list (string * embedding) :=
  match embeddings_path w with
  | Snapshot d => d
  | NoFile | Unreadable _ => []
  end.

(** The lines printed by one load. *)
Definition load_warning w : list string :=
  match embeddings_path w with
  | Unreadable why => ["Warning: Failed to load embeddings: " +:+ why]
  | NoFile | Snapshot _ => []
  end.

Definition after_load w : env embedding :=
  mkEnv (embeddings_path w) (on_write w) (stdout w ++ load_warning w).

Lemma load_embeddings_eq w self :
  load_embeddings w self = (on_disk w, after_load w, mkDb (on_disk w)).
Proof.
  unfold load_embeddings, on_disk, after_load, load_warning.
  destruct w as [[| |d] wr out]; simpl; by rewrite ?app_nil_r.
Qed.

(** The surroundings after a load and a write of [d]. *)
Definition after_dump (d : list (string * embedding)) w : env embedding :=
  match on_write w with
  | WriteOk => mkEnv (Snapshot d) (on_write w) (stdout w ++ load_warning w)
  | OpenFails => after_load w
  | DumpFails residue =>
      mkEnv (Unreadable residue) (on_write w) (stdout w ++ load_warning w)
  end.

Lemma dump_after_load d w :
  dump d (after_load w) =
  (match on_write w with WriteOk => true | _ => false end, after_dump d w).
Proof. unfold dump, after_dump, after_load. cbn [on_write]. by destruct (on_write w). Qed.

(** The name is rejected by the first guard of [save_embedding]. *)
Definition blank (name : option string) : Prop :=
  match name with
  | None => True
  | Some raw => PyStr.strip raw = EmptyString
  end.

(** C5. [save_embedding] raises [ValueError] when the name is absent,
    empty or made of whitespace only, or the embedding is absent, and then
    neither the file nor the object changes.  Otherwise the dictionary read
    from disk gets the embedding under the trimmed name, an existing key
    being overwritten in place and a new one added; the call returns
    exactly when the write completes, and then the file holds that whole
    dictionary.  When the write does not complete the call raises: the file
    is as it was if it could not be opened, and is left cut short, no
    longer loadable, if the dump failed after the file was opened. *)
Theorem save_embedding_upsert (name : option string) (embedding_ : option embedding) w self :
  (blank name ∨ embedding_ = None →
     ∃ msg, save_embedding name embedding_ w self = (Raise (ValueError msg), w, self)) ∧
  (∀ raw e, name = Some raw → PyStr.strip raw ≠ EmptyString → embedding_ = Some e →
     let key := PyStr.strip raw in
     let new := PyDict.set (on_disk w) key e in
     PyDict.get new key = Some e ∧
     (∀ k, k ≠ key → PyDict.get new k = PyDict.get (on_disk w) k) ∧
     PyDict.keys new =
       (if PyDict.mem (on_disk w) key then PyDict.keys (on_disk w)
        else PyDict.keys (on_disk w) ++ [key]) ∧
     (PyDict.wf (on_disk w) → PyDict.wf new) ∧
     save_embedding name embedding_ w self =
       match on_write w with
       | WriteOk =>
           (Return (),
            mkEnv (Snapshot new) WriteOk (stdout w ++ load_warning w),
            mkDb new)
       | OpenFails =>
           (Raise SaveFailed,
            mkEnv (embeddings_path w) OpenFails (stdout w ++ load_warning w),
            mkDb new)
       | DumpFails residue =>
           (Raise SaveFailed,
            mkEnv (Unreadable residue) (DumpFails residue) (stdout w ++ load_warning w),
            mkDb new)
       end).
Proof.
  split.
  - intros Hbad. unfold save_embedding. destruct name as [raw|]; [|eauto].
    case_bool_decide as Hblank; [eauto|].
    destruct embedding_ as [e|]; [|eauto].
    destruct Hbad as [Hbad|Hbad]; [by apply Hblank in Hbad|done].
  - intros raw e -> Hblank -> key new. subst key new.
    split_and!.
    + apply get_set_same.
    + intros k Hk. by apply get_set_other.
    + apply keys_set.
    + apply set_wf.
    + unfold save_embedding. rewrite bool_decide_eq_false_2 by done.
      rewrite load_embeddings_eq. cbn [embeddings]. rewrite dump_after_load.
      unfold after_dump, after_load. by destruct (on_write w).
Qed.

(** C7. When the snapshot is missing or cannot be loaded, every reading
    method returns what an empty registry gives (no items, no names, no
    embedding, count zero); none of them has an exceptional outcome; the
    file is left as it is; a load that failed prints one warning, a
    missing file prints nothing. *)
Theorem load_failure_degrades w self (name : string) :
  embeddings_path w = NoFile ∨ (∃ why, embeddings_path w = Unreadable why) →
  load_embeddings w self = ([], after_load w, mkDb []) ∧
  get_all_names w self = ([], after_load w, mkDb []) ∧
  get_embedding name w self = (None, after_load w, mkDb []) ∧
  get_count w self = (0%nat, after_load w, mkDb []) ∧
  embeddings_path (after_load w) = embeddings_path w ∧
  (embeddings_path w = NoFile → stdout (after_load w) = stdout w) ∧
  (∀ why, embeddings_path w = Unreadable why →
     stdout (after_load w) =
       stdout w ++ ["Warning: Failed to load embeddings: " +:+ why]).
Proof.
  intros Hfail.
  assert (Hdisk : on_disk w = []).
  { unfold on_disk. by destruct Hfail as [->|[why ->]]. }
  unfold get_all_names, get_embedding, get_count.
  rewrite load_embeddings_eq, Hdisk. split_and!; try done.
  - intros Hno. unfold after_load, load_warning. rewrite Hno. simpl.
    by rewrite app_nil_r.
  - intros why Hwhy. unfold after_load, load_warning. by rewrite Hwhy.
Qed.

End RegistryFacts.

(** Concrete registries, with one-dimensional embeddings. *)
Definition bob_only : env float :=
  mkEnv (Snapshot [("Bob", 1%float)]) WriteOk [].
Definition corrupt : env float :=
  mkEnv (Unreadable "pickle data was truncated") WriteOk [].

(** The same registry on a disk that fills up during the dump. *)
Definition bob_disk_full : env float :=
  mkEnv (Snapshot [("Bob", 1%float)]) (DumpFails "Ran out of input") [].

Lemma save_embedding_upsert_witness :
  (∃ msg, save_embedding (Some "   ") (Some 2%float) bob_only (mkDb []) =
            (Raise (ValueError msg), bob_only, mkDb [])) ∧
  save_embedding (Some " Ann ") (Some 2%float) bob_only (mkDb []) =
    (Return (),
     mkEnv (Snapshot [("Bob", 1%float); ("Ann", 2%float)]) WriteOk [],
     mkDb [("Bob", 1%float); ("Ann", 2%float)]) ∧
  save_embedding (Some " Ann ") (Some 2%float) bob_disk_full (mkDb []) =
    (Raise SaveFailed,
     mkEnv (Unreadable "Ran out of input") (DumpFails "Ran out of input") [],
     mkDb [("Bob", 1%float); ("Ann", 2%float)]).
Proof.
  assert (Hname : PyStr.strip " Ann " ≠ EmptyString) by (vm_compute; discriminate).
  split_and!.
  - exact (proj1 (save_embedding_upsert (Some "   ") (Some 2%float) bob_only (mkDb []))
             (or_introl eq_refl)).
  - destruct (proj2 (save_embedding_upsert (Some " Ann ") (Some 2%float) bob_only (mkDb []))
                " Ann " 2%float eq_refl Hname eq_refl) as (_ & _ & _ & _ & Hsave).
    exact Hsave.
  - destruct (proj2 (save_embedding_upsert (Some " Ann ") (Some 2%float) bob_disk_full
                       (mkDb []))
                " Ann " 2%float eq_refl Hname eq_refl) as (_ & _ & _ & _ & Hsave).
    exact Hsave.
Defined.

Lemma load_failure_degrades_witness :
  load_embeddings corrupt (mkDb [("Bob", 1%float)]) =
    ([],
     mkEnv (Unreadable "pickle data was truncated") WriteOk
       ["Warning: Failed to load embeddings: pickle data was truncated"],
     mkDb []).
Proof.
  exact (proj1 (load_failure_degrades corrupt (mkDb [("Bob", 1%float)]) "Bob"
                  (or_intror (ex_intro _ "pickle data was truncated" eq_refl)))).
Defined.

End DatabaseFacts.

(** ** The order of binary64 numbers *)

(** [<] and [<=] on floats, through their specification on [spec_float];
    every comparison with a NaN is false. *)
Module FloatOrder.

Ltac sf_order :=
  simpl; try congruence;
  repeat match goal with
    | |- context [PosDef.Pos.compare_cont Eq ?p ?q] =>
        change (PosDef.Pos.compare_cont Eq p q) with (Pos.compare p q);
        destruct (Pos.compare_spec p q)
    | |- context [Z.compare ?p ?q] => destruct (Z.compare_spec p q)
    end;
  simpl; try congruence; intros; exfalso; lia.

Lemma SFcompare_Lt_trans (a b c : spec_float) :
  SFcompare a b = Some Lt → SFcompare b c = Some Lt → SFcompare a c = Some Lt.
Proof.
  destruct a as [[]|[]| |[] ma ea], b as [[]|[]| |[] mb eb], c as [[]|[]| |[] mc ec];
    sf_order.
Qed.

Lemma SFcompare_Eq_Lt_trans (a b c : spec_float) :
  SFcompare a b = Some Eq → SFcompare b c = Some Lt → SFcompare a c = Some Lt.
Proof.
  destruct a as [[]|[]| |[] ma ea], b as [[]|[]| |[] mb eb], c as [[]|[]| |[] mc ec];
    sf_order.
Qed.

Lemma SFcompare_irrefl (a : spec_float) : SFcompare a a ≠ Some Lt.
Proof. destruct a as [[]|[]| |[] ma ea]; sf_order. Qed.

Lemma ltb_trans (x y z : float) :
  (x <? y)%float = true → (y <? z)%float = true → (x <? z)%float = true.
Proof.
  rewrite !ltb_spec. unfold SFltb.
  destruct (SFcompare (Prim2SF x) (Prim2SF y)) as [[]|] eqn:Hxy; try discriminate.
  destruct (SFcompare (Prim2SF y) (Prim2SF z)) as [[]|] eqn:Hyz; try discriminate.
  by rewrite (SFcompare_Lt_trans _ _ _ Hxy Hyz).
Qed.

Lemma leb_ltb_trans (x y z : float) :
  (x <=? y)%float = true → (y <? z)%float = true → (x <? z)%float = true.
Proof.
  rewrite leb_spec, !ltb_spec. unfold SFleb, SFltb.
  destruct (SFcompare (Prim2SF x) (Prim2SF y)) as [[]|] eqn:Hxy; try discriminate;
    destruct (SFcompare (Prim2SF y) (Prim2SF z)) as [[]|] eqn:Hyz; try discriminate;
    intros _ _.
  - by rewrite (SFcompare_Eq_Lt_trans _ _ _ Hxy Hyz).
  - by rewrite (SFcompare_Lt_trans _ _ _ Hxy Hyz).
Qed.

Lemma ltb_irrefl (x : float) : (x <? x)%float = false.
Proof.
  rewrite ltb_spec. unfold SFltb. pose proof (SFcompare_irrefl (Prim2SF x)) as H.
  by destruct (SFcompare (Prim2SF x) (Prim2SF x)) as [[]|].
Qed.

End FloatOrder.

(** ** The match engine *)

Module MatcherFacts.
Import Database Matcher FloatOrder.

Section ScanFacts.
Context {embedding : Type}.
Variable cosine_similarity : embedding → embedding → outcome float.
Variable one_minus : float → float.
Variable to_dtype : float → float.

Abbreviation compare_embeddings := (compare_embeddings cosine_similarity one_minus).
Abbreviation scan := (scan cosine_similarity one_minus).
Abbreviation find_match := (find_match cosine_similarity one_minus to_dtype).

(** The comparison of [q] with every entry of [items] returns, and [sim]
    gives the similarities. *)
Definition comparable (q : embedding) (sim : embedding → float)
    (items : list (string * embedding)) : Prop :=
  ∀ n e, (n, e) ∈ items → cosine_similarity q e = Return (sim e).

(** The cosine distance of an entry whose similarity is [sim e]. *)
Definition distance (sim : embedding → float) (e : embedding) : float :=
  one_minus (sim e).

(** Entry [i] of [items] is the first one at the least distance [d]: no
    entry is strictly closer, and every earlier one is strictly farther
    (or not comparable). *)
Definition first_closest (sim : embedding → float) (items : list (string * embedding))
    (i : nat) (name : string) (d : float) : Prop :=
  (∃ e, items !! i = Some (name, e) ∧ d = distance sim e) ∧
  (∀ j n e, items !! j = Some (n, e) → (distance sim e <? d)%float = false) ∧
  (∀ j n e, (j < i)%nat → items !! j = Some (n, e) → (distance sim e <=? d)%float = false).

(** No entry of [items] is at a distance below [+inf]. *)
Definition none_finite (sim : embedding → float) (items : list (string * embedding)) : Prop :=
  ∀ j n e, items !! j = Some (n, e) → (distance sim e <? infinity)%float = false.

(** The loop invariant: what [best_match] and [best_distance] hold after
    the entries [seen]. *)
Definition tracked (sim : embedding → float) (seen : list (string * embedding))
    (best_match : option string) (best_distance : float) : Prop :=
  (best_match = None ∧ best_distance = infinity ∧ none_finite sim seen) ∨
  (∃ i name, best_match = Some name ∧
     (best_distance <? infinity)%float = true ∧
     first_closest sim seen i name best_distance).

Lemma tracked_below sim seen bm bd d :
  tracked sim seen bm bd → (d <? bd)%float = true → (d <? infinity)%float = true.
Proof.
  intros [(_ & -> & _)|(i & name & _ & Hfin & _)] Hd; [done|].
  by eapply ltb_trans.
Qed.

Lemma tracked_least sim seen bm bd j n e :
  tracked sim seen bm bd → seen !! j = Some (n, e) →
  (distance sim e <? bd)%float = false.
Proof.
  intros [(_ & -> & Hnone)|(i & name & _ & _ & _ & Hmin & _)] Hj; eauto.
Qed.

Lemma tracked_step sim seen name e bm bd :
  tracked sim seen bm bd →
  tracked sim (seen ++ [(name, e)])
    (if (distance sim e <? bd)%float then Some name else bm)
    (if (distance sim e <? bd)%float then distance sim e else bd).
Proof.
  intros Ht. destruct (distance sim e <? bd)%float eqn:Hlt.
  - right. exists (length seen), name. split_and!; [done|by eapply tracked_below|].
    split_and!.
    + exists e. split; [|done]. by rewrite lookup_app_r, Nat.sub_diag by lia.
    + intros j n e' Hj. apply lookup_app_Some in Hj as [Hj|[_ Hj]].
      * destruct (distance sim e' <? distance sim e)%float eqn:Hc; [|done].
        rewrite <- (tracked_least _ _ _ _ _ _ _ Ht Hj). symmetry. by eapply ltb_trans.
      * apply list_lookup_singleton_Some in Hj as [_ [= _ <-]]. apply ltb_irrefl.
    + intros j n e' Hji Hj. rewrite lookup_app_l in Hj by done.
      destruct (distance sim e' <=? distance sim e)%float eqn:Hc; [|done].
      rewrite <- (tracked_least _ _ _ _ _ _ _ Ht Hj). symmetry. by eapply leb_ltb_trans.
  - destruct Ht as [(-> & -> & Hnone)|(i & best & -> & Hfin & (e0 & Hi & ->) & Hmin & Hfirst)].
    + left. split_and!; [done|done|]. intros j n e' Hj.
      apply lookup_app_Some in Hj as [Hj|[_ Hj]]; [by eapply Hnone|].
      by apply list_lookup_singleton_Some in Hj as [_ [= _ <-]].
    + right. exists i, best. split_and!; [done|done|]. split_and!.
      * exists e0. split; [|done]. by apply lookup_app_l_Some.
      * intros j n e' Hj. apply lookup_app_Some in Hj as [Hj|[_ Hj]]; [by eapply Hmin|].
        by apply list_lookup_singleton_Some in Hj as [_ [= _ <-]].
      * intros j n e' Hji Hj. apply (Hfirst j n e' Hji).
        apply lookup_lt_Some in Hi. by rewrite lookup_app_l in Hj by lia.
Qed.

Lemma comparable_cons q sim name e items :
  comparable q sim ((name, e) :: items) →
  cosine_similarity q e = Return (sim e) ∧ comparable q sim items.
Proof.
  intros Hc. split; [apply (Hc name), list_elem_of_here|].
  intros n e' Hin. apply (Hc n). by apply list_elem_of_further.
Qed.

(** With a query that is present and comparisons that return, the loop
    runs to its end and keeps the invariant. *)
Lemma scan_tracked q sim items : ∀ seen bm bd,
  comparable q sim items →
  tracked sim seen bm bd →
  ∃ bm' bd', scan (Some q) items bm bd = Return (bm', bd') ∧
             tracked sim (seen ++ items) bm' bd'.
Proof.
  induction items as [|[name e] items IH]; intros seen bm bd Hc Ht.
  - exists bm, bd. by rewrite app_nil_r.
  - apply comparable_cons in Hc as [He Hc].
    cbn [Matcher.scan Matcher.compare_embeddings]. rewrite He.
    fold (distance sim e).
    pose proof (tracked_step sim seen name e bm bd Ht) as Hstep.
    rewrite (cons_middle _ seen items), (assoc_L (++)).
    destruct (distance sim e <? bd)%float; by apply IH.
Qed.

(** The loop stops at the first comparison that raises. *)
Lemma scan_raises q sim seen name e rest err : ∀ bm bd,
  comparable q sim seen →
  cosine_similarity q e = Raise err →
  scan (Some q) (seen ++ (name, e) :: rest) bm bd = Raise err.
Proof.
  induction seen as [|[n0 e0] seen IH]; intros bm bd Hc He.
  - cbn [app Matcher.scan Matcher.compare_embeddings]. by rewrite He.
  - apply comparable_cons in Hc as [He0 Hc].
    cbn [app Matcher.scan Matcher.compare_embeddings]. rewrite He0.
    destruct (one_minus (sim e0) <? bd)%float; by apply IH.
Qed.

Lemma find_match_unfold query threshold self_threshold
    (w : env embedding) (self : db embedding) :
  (find_match query threshold self_threshold w self).1.1 =
  match DatabaseFacts.on_disk w with
  | [] => Return (None, None)
  | items =>
      match scan query items None infinity with
      | Return (best_match, best_distance) =>
          if truthy best_match &&
             (best_distance <? to_dtype (default self_threshold threshold))%float
          then Return (best_match, Some best_distance)
          else Return (None, None)
      | Raise e => Raise e
      end
  end.
Proof.
  unfold Matcher.find_match. rewrite DatabaseFacts.load_embeddings_eq.
  destruct (DatabaseFacts.on_disk w) as [|item items]; [done|].
  rewrite bool_decide_eq_false_2 by done.
  destruct (scan query (item :: items) None infinity) as [[bm bd]|]; [|done].
  by destruct (truthy bm && (bd <? to_dtype (default self_threshold threshold))%float).
Qed.

Lemma truthy_name name : PyStr.truthy name = bool_decide (name ≠ EmptyString).
Proof. by destruct name. Qed.

(** C3. [find_match] with a query that is present scans every entry of
    the registry as loaded from disk.  On an empty registry the answer is
    "no match", whatever the query and the threshold.  Otherwise, when the
    comparison with every entry returns: either no entry lies at a distance
    below [+inf] and the answer is "no match", or the scan ends on the
    first entry at the least distance, and the answer is that entry with
    its distance exactly when its name is not the empty string (no key
    written by [save_embedding] is) and the distance is strictly below the
    threshold as NumPy compares it, that is the threshold converted to the
    type of the distance; the answer is "no match" if not.  When a
    comparison raises (scikit-learn rejects a vector with a NaN), the
    exception of the first such entry is the outcome of [find_match]. *)
Theorem find_match_closest (q : embedding) (threshold : option float)
    (self_threshold : float) (w : env embedding) (self : db embedding) :
  let items := DatabaseFacts.on_disk w in
  let result := (find_match (Some q) threshold self_threshold w self).1.1 in
  (items = [] →
     ∀ query, (find_match query threshold self_threshold w self).1.1
              = Return (None, None)) ∧
  (∀ sim, items ≠ [] → comparable q sim items →
     (none_finite sim items ∧ result = Return (None, None)) ∨
     (∃ i name d,
        first_closest sim items i name d ∧
        (d <? infinity)%float = true ∧
        result =
          if bool_decide (name ≠ EmptyString)
             && (d <? to_dtype (default self_threshold threshold))%float
          then Return (Some name, Some d)
          else Return (None, None))) ∧
  (∀ sim seen name e rest err,
     items = seen ++ (name, e) :: rest →
     comparable q sim seen →
     cosine_similarity q e = Raise err →
     result = Raise err).
Proof.
  intros items result. subst result. split_and!.
  - intros Hempty query. rewrite find_match_unfold. fold items. by rewrite Hempty.
  - intros sim Hne Hc. rewrite find_match_unfold. fold items.
    destruct (scan_tracked q sim items [] None infinity Hc) as (bm & bd & Hscan & Ht).
    { left. split_and!; [done|done|]. by intros j n e Hj. }
    rewrite app_nil_l in Ht.
    destruct items as [|item rest] eqn:Hitems; [done|].
    rewrite Hscan.
    destruct Ht as [(-> & -> & Hnone)|(i & name & -> & Hfin & Hfirst)].
    + left. by split.
    + right. exists i, name, bd. split_and!; [done|done|].
      cbn [truthy]. by rewrite truthy_name.
  - intros sim seen name e rest err Hitems Hc He. rewrite find_match_unfold.
    fold items. rewrite Hitems.
    pose proof (scan_raises q sim seen name e rest err None infinity Hc He) as Hscan.
    destruct (seen ++ (name, e) :: rest) as [|item items'] eqn:Heq; [by destruct seen|].
    by rewrite Hscan.
Qed.

(** C10. [compare_embeddings] returns the bare float [0.0] as soon as one
    argument is [None]; with a query that is [None] and a registry that
    is not empty, [find_match] raises [TypeError] where it unpacks the
    result. *)
Theorem find_match_absent_query :
  (∀ embedding2, compare_embeddings None embedding2 = Bare 0%float) ∧
  (∀ embedding1, compare_embeddings embedding1 None = Bare 0%float) ∧
  (∀ threshold self_threshold (w : env embedding) (self : db embedding),
     DatabaseFacts.on_disk w ≠ [] →
     (find_match None threshold self_threshold w self).1.1 =
       Raise (TypeError "cannot unpack non-iterable float object")).
Proof.
  split_and!.
  - done.
  - by intros [e|].
  - intros threshold self_threshold w self Hne. rewrite find_match_unfold.
    by destruct (DatabaseFacts.on_disk w) as [|[name e] items].
Qed.

End ScanFacts.

(** One-dimensional embeddings of type [float64]: the similarity of two
    numbers is their product, rejected when one of them is a NaN, and the
    threshold is compared as it is. *)
Definition enrolled : env float :=
  mkEnv (Snapshot [("Bob", 0.5%float); ("A", 1%float); ("C", 1%float)]) WriteOk [].

Definition product (a b : float) : outcome float :=
  if (a =? a)%float && (b =? b)%float then Return (a * b)%float
  else Raise (ValueError "Input contains NaN.").
Definition from_one (s : float) : float := (1 - s)%float.
Definition float64 (threshold : float) : float := threshold.

Lemma enrolled_comparable :
  comparable product 1%float (λ e, (1 * e)%float) (DatabaseFacts.on_disk enrolled).
Proof.
  intros n e Hin. vm_compute in Hin.
  repeat (apply elem_of_cons in Hin as [[= _ ->]|Hin]; [reflexivity|]).
  by apply elem_of_nil in Hin.
Qed.

(** The tie between "A" and "C" goes to "A", which comes first; "Bob" is
    farther. *)
Lemma find_match_closest_witness :
  (∀ query,
     (find_match product from_one float64 query (Some 0.5%float) 0.5%float
        (mkEnv NoFile WriteOk []) (mkDb [])).1.1 = Return (None, None)) ∧
  (find_match product from_one float64 (Some 1%float) None 0.5%float enrolled (mkDb [])).1.1
  = Return (Some "A", Some 0%float) ∧
  (find_match product from_one float64 (Some nan) None 0.5%float enrolled (mkDb [])).1.1
  = Raise (ValueError "Input contains NaN.").
Proof.
  split_and!.
  - exact (proj1 (find_match_closest product from_one float64 1%float (Some 0.5%float)
                    0.5%float (mkEnv NoFile WriteOk []) (mkDb [])) eq_refl).
  - destruct (proj1 (proj2 (find_match_closest product from_one float64 1%float None
                              0.5%float enrolled (mkDb [])))
                (λ e, (1 * e)%float)) as [[Hnone _]|(i & name & d & Hfirst & _ & ->)].
    + discriminate.
    + exact enrolled_comparable.
    + specialize (Hnone 0%nat "Bob" 0.5%float eq_refl). vm_compute in Hnone. discriminate.
    + destruct Hfirst as ((e & Hi & ->) & Hmin & Hearlier).
      destruct i as [|[|[|i]]]; cbn in Hi; [| | |discriminate].
      * specialize (Hmin 1%nat "A" 1%float eq_refl).
        injection Hi as <- <-. vm_compute in Hmin. discriminate.
      * injection Hi as <- <-. vm_compute. reflexivity.
      * specialize (Hearlier 1%nat "A" 1%float (le_n 2) eq_refl).
        injection Hi as <- <-. vm_compute in Hearlier. discriminate.
  - apply (proj2 (proj2 (find_match_closest product from_one float64 nan None
                           0.5%float enrolled (mkDb [])))
             (λ e, (1 * e)%float) [] "Bob" 0.5%float
             [("A", 1%float); ("C", 1%float)] (ValueError "Input contains NaN.")).
    + reflexivity.
    + intros n e Hin. by apply elem_of_nil in Hin.
    + reflexivity.
Defined.

Lemma find_match_absent_query_witness :
  (find_match product from_one float64 None None 0.5%float enrolled (mkDb [])).1.1 =
    Raise (TypeError "cannot unpack non-iterable float object").
Proof.
  apply (proj2 (proj2 (find_match_absent_query product from_one float64))).
  discriminate.
Defined.

End MatcherFacts.

(** ** The face locator *)

Module FaceDetectorFacts.
Import FaceDetector.

(** Width times height of a candidate. *)
Definition area (r : rect) : Z := let '(_, _, w, h) := r in w * h.

(** The area is a number that [int32] holds: always so for a rectangle
    inside a frame of fewer than 2^31 pixels. *)
Definition fits (r : rect) : Prop := - 2 ^ 31 ≤ area r < 2 ^ 31.

Lemma int32_fits z : - 2 ^ 31 ≤ z < 2 ^ 31 → int32 z = z.
Proof.
  intros Hz. unfold int32. rewrite Z.mod_small; lia.
Qed.

Lemma area_key_fits r : fits r → area_key r = area r.
Proof. destruct r as [[[x y] w] h]. apply int32_fits. Qed.

(** [best] is the first item of [l] with the largest key. *)
Definition first_largest {A} (key : A → Z) (l : list A) (best : A) : Prop :=
  ∃ i, l !! i = Some best ∧
       (∀ item, item ∈ l → key item ≤ key best) ∧
       (∀ j item, (j < i)%nat → l !! j = Some item → key item < key best).

Lemma max_from_first_largest {A} (key : A → Z) (l seen : list A) (best : A) :
  first_largest key seen best →
  first_largest key (seen ++ l) (max_from key best l).
Proof.
  revert seen best. induction l as [|item l IH]; intros seen best Hbest; simpl.
  - by rewrite app_nil_r.
  - rewrite (cons_middle _ seen l), (assoc_L (++)). apply IH.
    destruct Hbest as (i & Hi & Hmax & Hfirst).
    destruct (key best <? key item) eqn:Hlt.
    + apply Z.ltb_lt in Hlt. exists (length seen). split_and!.
      * by rewrite lookup_app_r, Nat.sub_diag by lia.
      * intros r [Hr| ->%list_elem_of_singleton]%elem_of_app; [|lia].
        specialize (Hmax r Hr). lia.
      * intros j r Hj Hr. rewrite lookup_app_l in Hr by done.
        apply list_elem_of_lookup_2 in Hr. specialize (Hmax r Hr). lia.
    + apply Z.ltb_ge in Hlt. exists i. split_and!.
      * by apply lookup_app_l_Some.
      * intros r [Hr| ->%list_elem_of_singleton]%elem_of_app; [by apply Hmax|done].
      * intros j r Hj Hr. apply (Hfirst j r Hj).
        apply lookup_lt_Some in Hi. by rewrite lookup_app_l in Hr by lia.
Qed.

Section DetectorFacts.
Context {image : Type}.
Variable cvtColor_gray : image → image.
Variable detectMultiScale : image → list rect.
Variable crop : image → rect → image.
Variable resize : image → Z * Z → image.

Abbreviation detect_face := (detect_face cvtColor_gray detectMultiScale crop resize).

(** C9. Without a frame, or when the cascade finds no rectangle,
    [detect_face] returns [(None, None)].  When it finds some, and their
    areas are numbers that [int32] holds, it picks the first rectangle of
    the largest area [w * h], and returns the crop of the frame at that
    rectangle resized to 160x160 together with the rectangle itself; of
    two rectangles of areas 900 and 400, in either order, it is the one
    of area 900. *)
Theorem detect_face_largest (frame : option image) :
  (frame = None → detect_face frame = (None, None)) ∧
  (∀ img, frame = Some img → detectMultiScale (cvtColor_gray img) = [] →
     detect_face frame = (None, None)) ∧
  (∀ img faces, frame = Some img → detectMultiScale (cvtColor_gray img) = faces →
     faces ≠ [] → Forall fits faces →
     ∃ best, first_largest area faces best ∧
       detect_face frame = (Some (resize (crop img best) (160, 160)), Some best)) ∧
  (∀ img big small, frame = Some img → area big = 900 → area small = 400 →
     detectMultiScale (cvtColor_gray img) = [big; small] ∨
     detectMultiScale (cvtColor_gray img) = [small; big] →
     detect_face frame = (Some (resize (crop img big) (160, 160)), Some big)).
Proof.
  split_and!.
  - by intros ->.
  - intros img -> Hnone. unfold FaceDetector.detect_face. by rewrite Hnone.
  - intros img faces -> Hfaces Hne Hfits. unfold FaceDetector.detect_face.
    rewrite Hfaces. destruct faces as [|first others]; [done|].
    exists (max_from area_key first others). split; [|done].
    destruct (max_from_first_largest area_key others [first] first)
      as (i & Hi & Hmax & Hfirst).
    { exists 0%nat. split_and!; [done| |intros; lia].
      by intros r ->%list_elem_of_singleton. }
    simpl in Hi, Hmax, Hfirst. rewrite Forall_forall in Hfits.
    assert (Hbest : max_from area_key first others ∈ first :: others)
      by by eapply list_elem_of_lookup_2.
    exists i. split_and!; [done| |].
    + intros r Hr. rewrite <- !area_key_fits by auto. by apply Hmax.
    + intros j r Hj Hr. rewrite <- !area_key_fits; eauto.
      apply Hfits. by eapply list_elem_of_lookup_2.
  - intros img big small -> Hbig Hsmall Hfaces. unfold FaceDetector.detect_face.
    assert (Hkb : area_key big = 900) by (rewrite area_key_fits; unfold fits; lia).
    assert (Hks : area_key small = 400) by (rewrite area_key_fits; unfold fits; lia).
    destruct Hfaces as [-> | ->]; simpl; by rewrite ?Hkb, ?Hks.
Qed.

End DetectorFacts.

(** A frame is modelled by the rectangles the cascade finds in it; a crop
    by its rectangle. *)
Definition two_faces : list rect := [(10, 10, 20, 20); (50, 40, 30, 30)].

Lemma two_faces_fit : Forall fits two_faces.
Proof. repeat constructor; vm_compute; discriminate. Qed.

Lemma detect_face_largest_witness :
  detect_face (λ img, img) (λ img, img) (λ _ r, [r]) (λ img _, img) (Some two_faces)
  = (Some [(50, 40, 30, 30)], Some (50, 40, 30, 30)) ∧
  ∃ best, first_largest area two_faces best ∧
    detect_face (λ img, img) (λ img, img) (λ _ r, [r]) (λ img _, img) (Some two_faces)
    = (Some [best], Some best).
Proof.
  split.
  - apply (proj2 (proj2 (proj2
             (detect_face_largest (λ img, img) (λ img, img) (λ _ r, [r]) (λ img _, img)
                (Some two_faces))))
             two_faces (50, 40, 30, 30) (10, 10, 20, 20) eq_refl eq_refl eq_refl).
    right. reflexivity.
  - apply (proj1 (proj2 (proj2
             (detect_face_largest (λ img, img) (λ img, img) (λ _ r, [r]) (λ img _, img)
                (Some two_faces))))
             two_faces two_faces eq_refl eq_refl).
    + discriminate.
    + exact two_faces_fit.
Defined.

End FaceDetectorFacts.

(** * Further properties of the code *)

(** ** The registry: lookups, removals and sequences of writes *)

Module RegistryFacts.
Import Database DatabaseFacts PyStrFacts.

Section DictMore.
Context {V : Type}.
Implicit Types (d : list (string * V)) (k : string) (v : V).

Lemma get_None d k : PyDict.get d k = None ↔ k ∉ PyDict.keys d.
Proof.
  unfold PyDict.keys. induction d as [|[k' v'] d IH]; simpl.
  - split; [intros _; apply not_elem_of_nil|done].
  - rewrite not_elem_of_cons. destruct (decide (k' = k)) as [->|Hne].
    + split; [done|]. by intros [[] _].
    + rewrite IH. split; [intros ?; split; [congruence|done]|by intros [_ ?]].
Qed.

Lemma mem_true d k : PyDict.mem d k = true ↔ k ∈ PyDict.keys d.
Proof. unfold PyDict.mem, PyDict.keys. by rewrite bool_decide_eq_true. Qed.

Lemma mem_false d k : PyDict.mem d k = false ↔ k ∉ PyDict.keys d.
Proof. unfold PyDict.mem, PyDict.keys. by rewrite bool_decide_eq_false. Qed.

Lemma get_del_other d k k0 :
  k0 ≠ k → PyDict.get (PyDict.del d k) k0 = PyDict.get d k0.
Proof.
  intros Hne. induction d as [|[k' v'] d IH]; simpl; [done|].
  destruct (decide (k' = k)) as [->|Hne']; simpl.
  - by rewrite decide_False.
  - by rewrite IH.
Qed.

Lemma get_del_same d k : PyDict.wf d → PyDict.get (PyDict.del d k) k = None.
Proof.
  unfold PyDict.wf. induction d as [|[k' v'] d IH]; simpl; [done|].
  rewrite NoDup_cons. intros [Hk' Hd].
  destruct (decide (k' = k)) as [->|Hne]; simpl.
  - by apply get_None.
  - rewrite decide_False by done. by apply IH.
Qed.

Lemma keys_del d k : PyDict.keys (PyDict.del d k) `sublist_of` PyDict.keys d.
Proof.
  unfold PyDict.keys. induction d as [|[k' v'] d IH]; simpl; [done|].
  destruct (decide (k' = k)); simpl.
  - by apply sublist_cons.
  - by apply sublist_skip.
Qed.

Lemma del_absent d k : k ∉ PyDict.keys d → PyDict.del d k = d.
Proof.
  unfold PyDict.keys. induction d as [|[k' v'] d IH]; simpl; [done|].
  rewrite not_elem_of_cons. intros [Hne Hd].
  rewrite decide_False by done. by rewrite IH.
Qed.

Lemma length_del d k : k ∈ PyDict.keys d → S (length (PyDict.del d k)) = length d.
Proof.
  unfold PyDict.keys. induction d as [|[k' v'] d IH]; simpl.
  - by intros ?%elem_of_nil.
  - destruct (decide (k' = k)) as [->|Hne]; simpl; [done|].
    intros [?|Hin]%elem_of_cons; [done|]. by rewrite IH.
Qed.

Lemma length_set d k v :
  length (PyDict.set d k v) = if PyDict.mem d k then length d else S (length d).
Proof.
  rewrite <- !(length_fmap fst). change (fst <$> PyDict.set d k v) with
    (PyDict.keys (PyDict.set d k v)).
  rewrite keys_set. destruct (PyDict.mem d k); [done|].
  unfold PyDict.keys. rewrite length_app. simpl. lia.
Qed.

Lemma del_wf d k : PyDict.wf d → PyDict.wf (PyDict.del d k).
Proof. unfold PyDict.wf. intros Hwf. eapply sublist_NoDup; [exact Hwf|apply keys_del]. Qed.

End DictMore.

Section Methods.
Context {embedding : Type}.
Implicit Types (w : env embedding) (self : db embedding).

(** The methods, as functions of what is on disk. *)
Lemma save_embedding_eq raw e w self :
  PyStr.strip raw ≠ EmptyString →
  save_embedding (Some raw) (Some e) w self =
    let new := PyDict.set (on_disk w) (PyStr.strip raw) e in
    (match on_write w with WriteOk => Return () | _ => Raise SaveFailed end,
     after_dump new w, mkDb new).
Proof.
  intros Hblank. unfold save_embedding. rewrite bool_decide_eq_false_2 by done.
  rewrite load_embeddings_eq. cbn [embeddings]. rewrite dump_after_load.
  by destruct (on_write w).
Qed.

Lemma get_embedding_eq name w self :
  get_embedding name w self =
    (PyDict.get (on_disk w) (PyStr.strip name), after_load w, mkDb (on_disk w)).
Proof. unfold get_embedding. by rewrite load_embeddings_eq. Qed.

Lemma get_count_eq w self :
  get_count w self = (length (on_disk w), after_load w, mkDb (on_disk w)).
Proof. unfold get_count. by rewrite load_embeddings_eq. Qed.

Lemma delete_embedding_eq name w self :
  delete_embedding name w self =
    let key := PyStr.strip name in
    if PyDict.mem (on_disk w) key then
      let new := PyDict.del (on_disk w) key in
      (match on_write w with WriteOk => Return true | _ => Raise OSError end,
       after_dump new w, mkDb new)
    else (Return false, after_load w, mkDb (on_disk w)).
Proof.
  unfold delete_embedding. rewrite load_embeddings_eq. cbn [embeddings].
  destruct (PyDict.mem (on_disk w) (PyStr.strip name)); [|done].
  rewrite dump_after_load. by destruct (on_write w).
Qed.

(** What is on disk after a load and a write of [d]. *)
Lemma on_disk_after_dump d w :
  on_disk (after_dump d w) =
  match on_write w with
  | WriteOk => d
  | OpenFails => on_disk w
  | DumpFails _ => []
  end.
Proof. unfold after_dump. by destruct (on_write w). Qed.

Lemma on_disk_after_load w : on_disk (after_load w) = on_disk w.
Proof. done. Qed.

End Methods.
End RegistryFacts.

Module RegistryProps.
Import Database DatabaseFacts PyStrFacts RegistryFacts.

Section Props.
Context {embedding : Type}.
Implicit Types (w : env embedding) (self : db embedding).

(** X1. After [save_embedding] has returned, [get_embedding] gives the saved
    embedding back for every spelling of the name that trims to the same
    string, through any [EmbeddingDatabase] object on the same file; the
    embeddings of the other names are what they were. *)
Theorem save_then_get_embedding (raw name : string) (e : embedding) w self self' :
  PyStr.strip raw ≠ EmptyString →
  on_write w = WriteOk →
  let w' := (save_embedding (Some raw) (Some e) w self).1.2 in
  (save_embedding (Some raw) (Some e) w self).1.1 = Return () ∧
  (PyStr.strip name = PyStr.strip raw →
     (get_embedding name w' self').1.1 = Some e) ∧
  (PyStr.strip name ≠ PyStr.strip raw →
     (get_embedding name w' self').1.1 = (get_embedding name w self').1.1).
Proof.
  intros Hblank Hw. cbn zeta. rewrite save_embedding_eq by done. cbn zeta.
  cbn [fst snd]. rewrite !get_embedding_eq. cbn [fst snd].
  rewrite on_disk_after_dump, Hw. split_and!; [done| |].
  - intros ->. apply get_set_same.
  - intros Hne. by apply get_set_other.
Qed.

(** X2. After a save that returned, [get_count] is the count before when the
    trimmed name was already registered, and one more when it was not. *)
Theorem save_then_get_count (raw : string) (e : embedding) w self self' :
  PyStr.strip raw ≠ EmptyString →
  on_write w = WriteOk →
  let w' := (save_embedding (Some raw) (Some e) w self).1.2 in
  (get_count w' self').1.1 =
    if PyDict.mem (on_disk w) (PyStr.strip raw)
    then (get_count w self').1.1
    else S (get_count w self').1.1.
Proof.
  intros Hblank Hw. cbn zeta. rewrite save_embedding_eq by done. cbn zeta.
  cbn [fst snd]. rewrite !get_count_eq. cbn [fst snd].
  rewrite on_disk_after_dump, Hw. apply length_set.
Qed.

(** X3. [delete_embedding] of a name that is not registered returns [False]
    and leaves the file as it is.  Of a registered name, when the write
    completes, it returns [True]; afterwards the name has no embedding, the
    other names keep theirs, and the count is one less. *)
Theorem delete_embedding_removes (name other : string) w self self' :
  (PyDict.mem (on_disk w) (PyStr.strip name) = false →
     (delete_embedding name w self).1.1 = Return false ∧
     embeddings_path (delete_embedding name w self).1.2 = embeddings_path w) ∧
  (PyDict.mem (on_disk w) (PyStr.strip name) = true →
     on_write w = WriteOk → PyDict.wf (on_disk w) →
     let w' := (delete_embedding name w self).1.2 in
     (delete_embedding name w self).1.1 = Return true ∧
     (get_embedding name w' self').1.1 = None ∧
     (PyStr.strip other ≠ PyStr.strip name →
        (get_embedding other w' self').1.1 = (get_embedding other w self').1.1) ∧
     S (get_count w' self').1.1 = (get_count w self').1.1).
Proof.
  split.
  - intros Hmem. rewrite delete_embedding_eq. cbn zeta. by rewrite Hmem.
  - intros Hmem Hw Hwf. cbn zeta. rewrite delete_embedding_eq. cbn zeta.
    rewrite Hmem. cbn [fst snd]. rewrite !get_embedding_eq, !get_count_eq.
    cbn [fst snd]. rewrite !on_disk_after_dump, Hw. split_and!.
    + done.
    + by apply get_del_same.
    + intros Hne. by apply get_del_other.
    + apply length_del. by apply mem_true.
Qed.

(** X4. A write that fails at [open] is not seen by any later read: when
    the file cannot be opened for writing, [save_embedding] raises and
    [delete_embedding] of a registered name raises, the file is as before,
    and [get_embedding] and [get_count] afterwards answer as they did before
    the call. *)
Theorem failed_write_not_observable (raw name probe : string) (e : embedding) w self self' :
  on_write w = OpenFails →
  PyStr.strip raw ≠ EmptyString →
  PyDict.mem (on_disk w) (PyStr.strip name) = true →
  let ws := (save_embedding (Some raw) (Some e) w self).1.2 in
  let wd := (delete_embedding name w self).1.2 in
  (save_embedding (Some raw) (Some e) w self).1.1 = Raise SaveFailed ∧
  (delete_embedding name w self).1.1 = Raise OSError ∧
  embeddings_path ws = embeddings_path w ∧
  embeddings_path wd = embeddings_path w ∧
  (get_embedding probe ws self').1.1 = (get_embedding probe w self').1.1 ∧
  (get_embedding probe wd self').1.1 = (get_embedding probe w self').1.1 ∧
  (get_count ws self').1.1 = (get_count w self').1.1 ∧
  (get_count wd self').1.1 = (get_count w self').1.1.
Proof.
  intros Hw Hblank Hmem. cbn zeta.
  rewrite save_embedding_eq by done. rewrite delete_embedding_eq. cbn zeta.
  rewrite Hmem. cbn [fst snd]. rewrite !get_embedding_eq, !get_count_eq.
  cbn [fst snd]. rewrite !on_disk_after_dump. unfold after_dump. by rewrite Hw.
Qed.

(** X25. A write that fails after [open] loses the registry: the file was
    truncated when it was opened, so after a [save_embedding] that raised
    because the dump failed, the file cannot be loaded and every later read
    finds an empty registry, also for the names that were registered
    before. *)
Theorem failed_dump_loses_registry (raw probe residue : string) (e : embedding) w self self' :
  on_write w = DumpFails residue →
  PyStr.strip raw ≠ EmptyString →
  let ws := (save_embedding (Some raw) (Some e) w self).1.2 in
  (save_embedding (Some raw) (Some e) w self).1.1 = Raise SaveFailed ∧
  embeddings_path ws = Unreadable residue ∧
  (get_embedding probe ws self').1.1 = None ∧
  (get_count ws self').1.1 = 0%nat.
Proof.
  intros Hw Hblank. cbn zeta. rewrite save_embedding_eq by done. cbn zeta.
  cbn [fst snd]. rewrite !get_embedding_eq, !get_count_eq. cbn [fst snd].
  rewrite !on_disk_after_dump. unfold after_dump. by rewrite Hw.
Qed.

(** X5. Surrounding white space in a name is ignored by the registry:
    [save_embedding], [get_embedding] and [delete_embedding] do for a name
    what they do for the trimmed name. *)
Theorem registry_ignores_padding (raw : string) (e : option embedding) w self :
  save_embedding (Some raw) e w self = save_embedding (Some (PyStr.strip raw)) e w self ∧
  get_embedding raw w self = get_embedding (PyStr.strip raw) w self ∧
  delete_embedding raw w self = delete_embedding (PyStr.strip raw) w self.
Proof.
  split_and!.
  - unfold save_embedding. by rewrite !strip_idem.
  - unfold get_embedding. by rewrite !strip_idem.
  - unfold delete_embedding. by rewrite !strip_idem.
Qed.

(** *** Sequences of writes *)

(** The writing calls. *)
Inductive write : Type :=
  | Save (name : option string) (embedding_ : option embedding)
  | Delete (name : string).

Definition apply_write (s : env embedding * db embedding) (c : write)
  : env embedding * db embedding :=
  match c with
  | Save name e => let '(_, w, self) := save_embedding name e s.1 s.2 in (w, self)
  | Delete name => let '(_, w, self) := delete_embedding name s.1 s.2 in (w, self)
  end.

Definition apply_writes (cs : list write) (s : env embedding * db embedding)
  : env embedding * db embedding :=
  foldl apply_write s cs.

(** Every key is a trimmed, non-empty name, and no key occurs twice. *)
Definition keys_ok (d : list (string * embedding)) : Prop :=
  PyDict.wf d ∧ Forall (λ k, k ≠ EmptyString ∧ PyStr.strip k = k) (PyDict.keys d).

Lemma keys_ok_nil : keys_ok [].
Proof. split; [apply NoDup_nil_2|apply Forall_nil_2]. Qed.

Lemma set_keys_ok d raw e :
  PyStr.strip raw ≠ EmptyString → keys_ok d → keys_ok (PyDict.set d (PyStr.strip raw) e).
Proof.
  intros Hblank [Hwf Hkeys]. split; [by apply set_wf|].
  rewrite keys_set. destruct (PyDict.mem d (PyStr.strip raw)); [done|].
  apply Forall_app. split; [done|]. apply Forall_singleton.
  split; [done|apply strip_idem].
Qed.

Lemma del_keys_ok d k : keys_ok d → keys_ok (PyDict.del d k).
Proof.
  intros [Hwf Hkeys]. split; [by apply del_wf|].
  rewrite Forall_forall in Hkeys |- *. intros x Hx. apply Hkeys.
  eapply elem_of_sublist; [exact Hx|apply keys_del].
Qed.

Lemma apply_write_keys_ok s c :
  keys_ok (on_disk s.1) → keys_ok (on_disk (apply_write s c).1).
Proof.
  destruct s as [w self]. cbn [fst snd]. intros Hok. destruct c as [name e|name]; simpl.
  - destruct name as [raw|]; [|done].
    destruct (decide (PyStr.strip raw = EmptyString)) as [Hblank|Hblank].
    { unfold save_embedding. by rewrite bool_decide_eq_true_2. }
    destruct e as [e|].
    2:{ unfold save_embedding. by rewrite bool_decide_eq_false_2. }
    rewrite save_embedding_eq by done. cbn zeta. cbn [fst].
    rewrite on_disk_after_dump. destruct (on_write w); [|done|apply keys_ok_nil].
    by apply set_keys_ok.
  - rewrite delete_embedding_eq. cbn zeta.
    destruct (PyDict.mem (on_disk w) (PyStr.strip name)); [|done]. cbn [fst].
    rewrite on_disk_after_dump. destruct (on_write w); [|done|apply keys_ok_nil].
    by apply del_keys_ok.
Qed.

(** X6. Whatever saves and deletions are made, with whatever arguments, a
    registry whose keys are distinct, trimmed and non-empty stays so; in
    particular one that starts from no file. *)
Theorem registry_keys_stay_trimmed (cs : list write) w self :
  keys_ok (on_disk w) → keys_ok (on_disk (apply_writes cs (w, self)).1).
Proof.
  intros Hok. unfold apply_writes.
  change w with (w, self).1 in Hok. generalize dependent (w, self). clear w self.
  induction cs as [|c cs IH]; intros s Hok; [done|].
  simpl. apply IH. by apply apply_write_keys_ok.
Qed.

End Props.

(** *** On concrete inputs *)

Lemma save_then_get_embedding_witness :
  (get_embedding " Ann"
     (save_embedding (Some "Ann ") (Some 2%float) bob_only (mkDb [])).1.2 (mkDb [])).1.1
  = Some 2%float.
Proof.
  assert (Hname : PyStr.strip "Ann " ≠ EmptyString) by (vm_compute; discriminate).
  exact (proj1 (proj2 (save_then_get_embedding "Ann " " Ann" 2%float bob_only
                         (mkDb []) (mkDb []) Hname eq_refl)) eq_refl).
Defined.

Lemma save_then_get_count_witness :
  (get_count (save_embedding (Some "Ann ") (Some 2%float) bob_only (mkDb [])).1.2
     (mkDb [])).1.1 = 2%nat.
Proof.
  assert (Hname : PyStr.strip "Ann " ≠ EmptyString) by (vm_compute; discriminate).
  exact (save_then_get_count "Ann " 2%float bob_only (mkDb []) (mkDb []) Hname eq_refl).
Defined.

Lemma delete_embedding_removes_witness :
  (delete_embedding "Ann" bob_only (mkDb [])).1.1 = Return false ∧
  (delete_embedding " Bob " bob_only (mkDb [])).1.1 = Return true ∧
  (get_embedding " Bob " (delete_embedding " Bob " bob_only (mkDb [])).1.2 (mkDb [])).1.1
  = None.
Proof.
  split.
  - exact (proj1 (proj1 (delete_embedding_removes "Ann" "Bob" bob_only (mkDb []) (mkDb []))
                    eq_refl)).
  - assert (Hwf : PyDict.wf (on_disk bob_only)) by (apply NoDup_singleton).
    destruct (proj2 (delete_embedding_removes " Bob " "Ann" bob_only (mkDb []) (mkDb []))
                eq_refl eq_refl Hwf) as (Hret & Hgone & _).
    split; [exact Hret|exact Hgone].
Defined.

Definition read_only : env float := mkEnv (Snapshot [("Bob", 1%float)]) OpenFails [].

Lemma failed_write_not_observable_witness :
  (save_embedding (Some "Ann") (Some 2%float) read_only (mkDb [])).1.1 = Raise SaveFailed ∧
  (get_embedding "Ann"
     (save_embedding (Some "Ann") (Some 2%float) read_only (mkDb [])).1.2 (mkDb [])).1.1
  = None.
Proof.
  assert (Hname : PyStr.strip "Ann" ≠ EmptyString) by (vm_compute; discriminate).
  destruct (failed_write_not_observable "Ann" "Bob" "Ann" 2%float read_only (mkDb [])
              (mkDb []) eq_refl Hname eq_refl) as (Hs & _ & _ & _ & Hg & _).
  split; [exact Hs|]. rewrite Hg. reflexivity.
Defined.

Lemma failed_dump_loses_registry_witness :
  (save_embedding (Some "Ann") (Some 2%float) bob_disk_full (mkDb [])).1.1
  = Raise SaveFailed ∧
  (get_embedding "Bob"
     (save_embedding (Some "Ann") (Some 2%float) bob_disk_full (mkDb [])).1.2 (mkDb [])).1.1
  = None ∧
  (get_embedding "Bob" bob_disk_full (mkDb [])).1.1 = Some 1%float.
Proof.
  assert (Hname : PyStr.strip "Ann" ≠ EmptyString) by (vm_compute; discriminate).
  destruct (failed_dump_loses_registry "Ann" "Bob" "Ran out of input" 2%float bob_disk_full
              (mkDb []) (mkDb []) eq_refl Hname) as (Hs & _ & Hg & _).
  split_and!; [exact Hs|exact Hg|reflexivity].
Defined.

Lemma registry_keys_stay_trimmed_witness :
  keys_ok
    (on_disk
       (apply_writes
          [Save (Some " Ann ") (Some 2%float); Save (Some "   ") (Some 3%float);
           Delete "Bob "; Save None None]
          (mkEnv NoFile WriteOk [], mkDb ([] : list (string * float)))).1).
Proof.
  apply registry_keys_stay_trimmed. split; [apply NoDup_nil_2|apply Forall_nil_2].
Defined.

End RegistryProps.

(** ** The ledger over the life of the file *)

Module LedgerProps.
Import Ledger LedgerFacts PyStrFacts.

(** [AttendanceManager._ensure_csv_exists]: a missing file is created with
    the header and no row; a file that exists is not touched. *)
Definition _ensure_csv_exists (f : csv_file) : csv_file :=
  match f with
  | Missing => Table []
  | ZeroBytes => ZeroBytes
  | Table rows => Table rows
  end.

(** [AttendanceManager.__init__], as far as the ledger goes: the file is
    ensured, [marked_today] starts empty. *)
Definition init (f : csv_file) : ledger := mkLedger (_ensure_csv_exists f) ∅.

(** What happens to a ledger file over time: calls on the current object,
    or a new process that constructs a new object on the same file. *)
Inductive event : Type :=
  | Called (c : call)
  | Restarted.

(** The rows of the file, none when there is no table. *)
Definition rows_of (f : csv_file) : list record :=
  match f with
  | Table rows => rows
  | Missing | ZeroBytes => []
  end.

Lemma rows_of_append_row f r : rows_of (append_row f r) = rows_of f ++ [r].
Proof. by destruct f. Qed.

Lemma marked_on_rows name day f :
  marked_on name day f ↔ (name, day) ∈ (ident <$> rows_of f).
Proof.
  destruct f; simpl; [| |done]; split; try done; by intros ?%elem_of_nil.
Qed.

Lemma append_row_changes f r : append_row f r ≠ f.
Proof.
  destruct f as [| |rows]; simpl; [done|done|]. intros [= Heq].
  apply (f_equal length) in Heq. rewrite length_app in Heq. simpl in Heq. lia.
Qed.

Section ReaderProps.
Context {value : Type}.
Variable infer : list string → list (option value).

Definition step_event (st : ledger) (ev : event) : ledger :=
  match ev with
  | Called c => step infer st c
  | Restarted => init (attendance_csv st)
  end.

Definition run_events (evs : list event) (st : ledger) : ledger :=
  foldl step_event st evs.

Lemma run_events_snoc evs ev st :
  run_events (evs ++ [ev]) st = step_event (run_events evs st) ev.
Proof. unfold run_events. by rewrite foldl_app. Qed.

Lemma step_event_prefix st ev :
  rows_of (attendance_csv st) `prefix_of` rows_of (attendance_csv (step_event st ev)).
Proof.
  destruct ev as [[name now|]|]; simpl.
  - destruct (mark_attendance_cases infer name now st)
      as [(o & -> & _)|(raw & _ & _ & _ & _ & _ & ->)]; [done|].
    simpl. rewrite rows_of_append_row. by apply prefix_app_r.
  - done.
  - by destruct (attendance_csv st).
Qed.

Lemma ledger_append_only_aux (evs : list event) (st : ledger) :
  rows_of (attendance_csv st) `prefix_of` rows_of (attendance_csv (run_events evs st)).
Proof.
  induction evs as [|ev evs IH] using rev_ind; [done|].
  rewrite run_events_snoc. etrans; [exact IH|apply step_event_prefix].
Qed.

(** X7. The store is append-only over the whole life of the file: after any
    calls of [mark_attendance] and [reset_session], and any number of new
    [AttendanceManager] objects, the rows that were in the file are still
    its first rows, unchanged and in the same order. *)
Theorem ledger_append_only (evs : list event) (st : ledger) :
  rows_of (attendance_csv st) `prefix_of` rows_of (attendance_csv (run_events evs st)).
Proof.
  revert st. induction evs as [|ev evs IH]; intros st; [done|].
  change (run_events (ev :: evs) st) with (run_events evs (step_event st ev)).
  etrans; [apply step_event_prefix|apply IH].
Qed.

(** X8. Once the store holds a record of a name for a date, every later
    [mark_attendance] of that name (in any spelling that trims to it) on that
    date returns [False] and changes nothing, whatever calls, resets of the
    session and restarts of the process came in between; this for a name
    and a date that [read_csv] reads back as text, whatever else the columns
    hold. *)
Theorem recorded_stays_refused (evs : list event) (raw : string) (now : clock) (st : ledger) :
  textual infer (PyStr.strip raw) →
  textual infer (today now) →
  marked_on (PyStr.strip raw) (today now) (attendance_csv st) →
  mark_attendance infer (Some raw) now (run_events evs st)
  = (Return false, run_events evs st).
Proof.
  intros Hname Hdate Hday. apply mark_attendance_found.
  apply marked_on_found; [done|done|].
  apply marked_on_rows. apply marked_on_rows in Hday.
  destruct (ledger_append_only_aux evs st) as [extra ->].
  rewrite fmap_app. apply elem_of_app. by left.
Qed.

Lemma mark_attendance_in_session raw now st :
  PyStr.strip raw ∈ marked_today st →
  mark_attendance infer (Some raw) now st = (Return false, st).
Proof.
  intros Hin. unfold mark_attendance. case_bool_decide; [done|].
  by rewrite bool_decide_eq_true_2.
Qed.

Lemma step_session_grows st c n :
  c ≠ ResetSession → n ∈ marked_today st → n ∈ marked_today (step infer st c).
Proof.
  intros Hc Hn. destruct c as [name now|]; [|done]. simpl.
  destruct (mark_attendance_cases infer name now st)
    as [(o & -> & _)|(raw & _ & _ & _ & _ & _ & ->)]; [done|].
  simpl. set_solver.
Qed.

Lemma run_session_grows calls st n :
  Forall (λ c, c ≠ ResetSession) calls →
  n ∈ marked_today st → n ∈ marked_today (run infer calls st).
Proof.
  intros Hcalls. revert st. induction Hcalls as [|c calls Hc _ IH]; intros st Hn; [done|].
  apply IH. by apply step_session_grows.
Qed.

(** X9. [marked_today] does not know the date: after a call that returned
    [True], and any further calls of [mark_attendance] without a
    [reset_session], a call for the same name returns [False] and writes
    nothing, on whatever date, also on a later day for which the store holds
    no record of the name. *)
Theorem session_refuses_on_any_date (calls : list call) (raw : string)
    (now1 now2 : clock) (st : ledger) :
  (mark_attendance infer (Some raw) now1 st).1 = Return true →
  Forall (λ c, c ≠ ResetSession) calls →
  let later := run infer calls (mark_attendance infer (Some raw) now1 st).2 in
  mark_attendance infer (Some raw) now2 later = (Return false, later).
Proof.
  intros Hfirst Hcalls later. apply mark_attendance_in_session.
  apply run_session_grows; [done|].
  destruct (mark_attendance_cases infer (Some raw) now1 st)
    as [(o & Heq & Ho)|(raw' & [= <-] & _ & _ & _ & _ & Heq)]; rewrite Heq in Hfirst |- *.
  - by destruct Ho.
  - simpl. set_solver.
Qed.

(** X10. Surrounding white space in the name is ignored by
    [mark_attendance]. *)
Theorem mark_attendance_ignores_padding (raw : string) (now : clock) (st : ledger) :
  mark_attendance infer (Some raw) now st
  = mark_attendance infer (Some (PyStr.strip raw)) now st.
Proof. unfold mark_attendance. by rewrite !strip_idem. Qed.

(** X11. The answer of [mark_attendance] tells what it did.  It returns
    [True] exactly when the file changed, and then the file has one more row,
    the last one, made of the trimmed name and of today's date and time, and
    the trimmed name is in [marked_today]; with any other outcome neither the
    file nor [marked_today] changed. *)
Theorem mark_attendance_answer_is_effect (name : option string) (now : clock) (st : ledger) :
  let o := (mark_attendance infer name now st).1 in
  let st' := (mark_attendance infer name now st).2 in
  (o = Return true ↔ attendance_csv st' ≠ attendance_csv st) ∧
  (o ≠ Return true → st' = st) ∧
  (o = Return true →
     ∃ raw, name = Some raw ∧
       rows_of (attendance_csv st') =
         rows_of (attendance_csv st)
           ++ [mkRecord (PyStr.strip raw) (today now) (current_time now)] ∧
       PyStr.strip raw ∈ marked_today st').
Proof.
  cbn zeta.
  destruct (mark_attendance_cases infer name now st)
    as [(o & -> & Ho)|(raw & -> & _ & _ & _ & _ & ->)]; cbn [fst snd].
  - split_and!; [split; [done|by intros []]|done|done].
  - cbn [attendance_csv marked_today]. split_and!.
    + split; [intros _; apply append_row_changes|done].
    + done.
    + intros _. exists raw. split_and!; [done|apply rows_of_append_row|set_solver].
Qed.

Lemma step_event_zero_bytes st ev :
  attendance_csv st = ZeroBytes → attendance_csv (step_event st ev) = ZeroBytes.
Proof.
  intros Hz. destruct ev as [[name now|]|]; simpl; [|done|by rewrite Hz].
  destruct (mark_attendance_cases infer name now st)
    as [(o & -> & _)|(raw & _ & _ & _ & _ & Hread & _)]; [done|].
  by destruct Hread.
Qed.

(** X13. A ledger file of zero bytes stays so: [_ensure_csv_exists] leaves it
    alone, and [mark_attendance] never returns [True] on it: for a name that
    passes the first two checks it raises [EmptyDataError] from
    [pd.read_csv], before it reaches the code that would write the header;
    this after any calls and restarts. *)
Theorem zero_byte_file_stays (evs : list event) (st : ledger) :
  attendance_csv st = ZeroBytes →
  let st' := run_events evs st in
  attendance_csv st' = ZeroBytes ∧
  (∀ name now, (mark_attendance infer name now st').1 ≠ Return true) ∧
  (∀ raw now, PyStr.strip raw ≠ EmptyString → PyStr.strip raw ∉ marked_today st' →
     mark_attendance infer (Some raw) now st' = (Raise EmptyDataError, st')).
Proof.
  intros Hz st'.
  assert (Hz' : attendance_csv st' = ZeroBytes).
  { subst st'. induction evs as [|ev evs IH] using rev_ind; [done|].
    rewrite run_events_snoc. by apply step_event_zero_bytes. }
  split_and!; [done| |].
  - intros name now.
    destruct (mark_attendance_cases infer name now st')
      as [(o & -> & Ho)|(raw & _ & _ & _ & _ & Hread & _)]; [done|].
    by destruct Hread.
  - intros raw now Hblank Hsession. unfold mark_attendance.
    rewrite !bool_decide_eq_false_2 by done. by rewrite Hz'.
Qed.

(** The positive half of the invariant of the ledger: over calls and
    restarts whose names and dates are read back as text, a store with at
    most one record per identity and date stays so. *)
Lemma run_events_unique evs st :
  Forall (λ ev, match ev with Called c => textual_call infer c | Restarted => True end) evs →
  unique_per_day (attendance_csv st) →
  unique_per_day (attendance_csv (run_events evs st)).
Proof.
  intros Ht Hu. induction evs as [|ev evs IH] using rev_ind; [done|].
  apply Forall_app in Ht as [Ht Hev]. rewrite Forall_singleton in Hev.
  rewrite run_events_snoc. destruct ev as [c|]; simpl.
  - apply step_unique; [exact Hev|by apply IH].
  - specialize (IH Ht).
    destruct (attendance_csv (run_events evs st)); simpl in *; [apply NoDup_nil_2|done|done].
Qed.

End ReaderProps.

(** *** On concrete inputs *)

Lemma not_na_value (s : string) : bool_decide (s ∈ na_values) = false → s ∉ na_values.
Proof. apply bool_decide_eq_false_1. Qed.

Lemma alice_textual : textual reader "Alice".
Proof. apply reader_textual; [by apply not_na_value|reflexivity]. Qed.

Lemma bob_textual : textual reader "Bob".
Proof. apply reader_textual; [by apply not_na_value|reflexivity]. Qed.

Lemma first_day_textual : textual reader "2024-01-01".
Proof. apply reader_textual; [by apply not_na_value|reflexivity]. Qed.

Lemma next_day_textual : textual reader "2024-01-02".
Proof. apply reader_textual; [by apply not_na_value|reflexivity]. Qed.

Definition a_week : list event :=
  [Called (Mark (Some "Bob") nine); Restarted; Called ResetSession;
   Called (Mark (Some "Alice") next_day); Restarted].

Lemma recorded_stays_refused_witness :
  mark_attendance reader (Some " Alice ") ten (run_events reader a_week after_restart)
  = (Return false, run_events reader a_week after_restart).
Proof.
  apply recorded_stays_refused.
  - exact alice_textual.
  - exact first_day_textual.
  - apply list_elem_of_here.
Defined.

Lemma session_refuses_on_any_date_witness :
  mark_attendance reader (Some "Alice") next_day
    (run reader [Mark (Some "Bob") ten] (mark_attendance reader (Some "Alice") nine fresh).2)
  = (Return false,
     run reader [Mark (Some "Bob") ten] (mark_attendance reader (Some "Alice") nine fresh).2)
  ∧ ¬ marked_on "Alice" (today next_day)
        (attendance_csv
           (run reader [Mark (Some "Bob") ten]
              (mark_attendance reader (Some "Alice") nine fresh).2)).
Proof.
  split.
  - apply (session_refuses_on_any_date reader [Mark (Some "Bob") ten] "Alice" nine next_day
             fresh).
    + reflexivity.
    + repeat constructor; discriminate.
  - vm_compute. intros H. repeat (apply elem_of_cons in H as [H|H]; [discriminate|]).
    by apply elem_of_nil in H.
Defined.

Lemma mark_attendance_answer_is_effect_witness :
  ∃ raw, Some " Alice " = Some raw ∧
    rows_of (attendance_csv (mark_attendance reader (Some " Alice ") nine fresh).2) =
      rows_of (attendance_csv fresh)
        ++ [mkRecord (PyStr.strip raw) (today nine) (current_time nine)] ∧
    PyStr.strip raw ∈ marked_today (mark_attendance reader (Some " Alice ") nine fresh).2.
Proof.
  apply (proj2 (proj2 (mark_attendance_answer_is_effect reader (Some " Alice ") nine fresh))).
  reflexivity.
Defined.

Lemma zero_byte_file_stays_witness :
  attendance_csv (run_events reader a_week (mkLedger ZeroBytes ∅)) = ZeroBytes.
Proof.
  exact (proj1 (zero_byte_file_stays reader a_week (mkLedger ZeroBytes ∅) eq_refl)).
Defined.

End LedgerProps.

(** ** The match engine: enrolment and the threshold *)

Module MatcherProps.
Import Database DatabaseFacts RegistryFacts Matcher MatcherFacts FloatOrder.

Lemma SFcompare_Lt_Eq_trans (a b c : spec_float) :
  SFcompare a b = Some Lt → SFcompare b c = Some Eq → SFcompare a c = Some Lt.
Proof.
  destruct a as [[]|[]| |[] ma ea], b as [[]|[]| |[] mb eb], c as [[]|[]| |[] mc ec];
    sf_order.
Qed.

Lemma ltb_leb_trans (x y z : float) :
  (x <? y)%float = true → (y <=? z)%float = true → (x <? z)%float = true.
Proof.
  rewrite leb_spec, !ltb_spec. unfold SFleb, SFltb.
  destruct (SFcompare (Prim2SF x) (Prim2SF y)) as [[]|] eqn:Hxy; try discriminate;
    destruct (SFcompare (Prim2SF y) (Prim2SF z)) as [[]|] eqn:Hyz; try discriminate;
    intros _ _.
  - by rewrite (SFcompare_Lt_Eq_trans _ _ _ Hxy Hyz).
  - by rewrite (SFcompare_Lt_trans _ _ _ Hxy Hyz).
Qed.

Section Props.
Context {embedding : Type}.
Variable cosine_similarity : embedding → embedding → outcome float.
Variable one_minus : float → float.
Variable to_dtype : float → float.

Abbreviation find_match := (find_match cosine_similarity one_minus to_dtype).

(** X14. Enrolment is seen by the next match.  After [save_embedding] has
    written a first entry to a registry that was empty or missing,
    [find_match] with a query that is present compares the query with the
    saved embedding: it returns the trimmed name and the distance when the
    distance is below the threshold as NumPy compares it (and below
    [+inf]), "no match" when it is not, and raises what the comparison
    raises. *)
Theorem enrol_then_find_match (raw : string) (e q : embedding)
    (threshold : option float) (self_threshold : float)
    (w : env embedding) (self self' : db embedding) :
  on_disk w = [] → on_write w = WriteOk → PyStr.strip raw ≠ EmptyString →
  let w' := (save_embedding (Some raw) (Some e) w self).1.2 in
  (∀ similarity, cosine_similarity q e = Return similarity →
     let d := one_minus similarity in
     (find_match (Some q) threshold self_threshold w' self').1.1 =
       if ((d <? infinity) && (d <? to_dtype (default self_threshold threshold)))%float
       then Return (Some (PyStr.strip raw), Some d)
       else Return (None, None)) ∧
  (∀ err, cosine_similarity q e = Raise err →
     (find_match (Some q) threshold self_threshold w' self').1.1 = Raise err).
Proof.
  intros Hempty Hw Hblank. cbn zeta. rewrite save_embedding_eq by done. cbn zeta.
  cbn [fst snd]. rewrite !find_match_unfold, on_disk_after_dump, Hw, Hempty.
  cbn [PyDict.set Matcher.scan Matcher.compare_embeddings]. split.
  - intros similarity ->.
    destruct (one_minus similarity <? infinity)%float; cbn [Matcher.truthy andb]; [|done].
    assert (Htruthy : PyStr.truthy (PyStr.strip raw) = true)
      by by destruct (PyStr.strip raw).
    by rewrite Htruthy.
  - by intros err ->.
Qed.

(** The conversion of the threshold keeps the order, as rounding to a
    float type does. *)
Hypothesis to_dtype_mono :
  ∀ t1 t2, (t1 <=? t2)%float = true → (to_dtype t1 <=? to_dtype t2)%float = true.

(** X15. The threshold decides whether the candidate is accepted, never
    which entry it is: a match found under one threshold is found, the same,
    under every larger one, and two thresholds that both give a match give
    the same name and distance. *)
Theorem find_match_threshold (query : option embedding) (t1 t2 self_threshold : float)
    (w : env embedding) (self : db embedding) (n1 n2 : string) (d1 d2 : float) :
  (find_match query (Some t1) self_threshold w self).1.1 = Return (Some n1, Some d1) →
  ((t1 <=? t2)%float = true →
     (find_match query (Some t2) self_threshold w self).1.1 = Return (Some n1, Some d1)) ∧
  ((find_match query (Some t2) self_threshold w self).1.1 = Return (Some n2, Some d2) →
     n1 = n2 ∧ d1 = d2).
Proof.
  rewrite !find_match_unfold. cbn [from_option id].
  destruct (on_disk w) as [|item items]; [done|].
  destruct (Matcher.scan cosine_similarity one_minus query (item :: items) None infinity)
    as [[bm bd]|err]; [|done].
  destruct (Matcher.truthy bm) eqn:Hbm; cbn [andb]; [|done].
  destruct (bd <? to_dtype t1)%float eqn:H1; [|done]. intros [= -> ->]. split.
  - intros Hle. by rewrite (ltb_leb_trans _ _ _ H1 (to_dtype_mono _ _ Hle)).
  - destruct (d1 <? to_dtype t2)%float; [|done]. by intros [= -> ->].
Qed.

End Props.

(** *** On concrete inputs *)

Lemma enrol_then_find_match_witness :
  (find_match product from_one float64 (Some 0.5%float) None 0.75%float
     (save_embedding (Some " Bob ") (Some 1%float) (mkEnv NoFile WriteOk []) (mkDb [])).1.2
     (mkDb [])).1.1
  = Return (Some "Bob", Some 0.5%float).
Proof.
  assert (Hname : PyStr.strip " Bob " ≠ EmptyString) by (vm_compute; discriminate).
  exact (proj1 (enrol_then_find_match product from_one float64 " Bob " 1%float 0.5%float
                  None 0.75%float (mkEnv NoFile WriteOk []) (mkDb []) (mkDb [])
                  eq_refl eq_refl Hname) 0.5%float eq_refl).
Defined.

Lemma find_match_threshold_witness :
  (find_match product from_one float64 (Some 1%float) (Some 0.75%float) 0.5%float enrolled
     (mkDb [])).1.1 = Return (Some "A", Some 0%float).
Proof.
  apply (proj1 (find_match_threshold product from_one float64 (λ t1 t2 H, H)
                  (Some 1%float) 0.25%float 0.75%float
                  0.5%float enrolled (mkDb []) "A" "A" 0%float 0%float eq_refl)).
  reflexivity.
Defined.

End MatcherProps.

(** ** The face locator: what the caller can rely on *)

Module FaceDetectorProps.
Import FaceDetector FaceDetectorFacts.

Lemma max_from_elem {A} (key : A → Z) (first : A) (others : list A) :
  first_largest key (first :: others) (max_from key first others).
Proof.
  apply (max_from_first_largest key others [first] first).
  exists 0%nat. split_and!; [done| |intros; lia].
  by intros r ->%list_elem_of_singleton.
Qed.

Lemma first_largest_elem {A} (key : A → Z) (l : list A) (best : A) :
  first_largest key l best → best ∈ l ∧ ∀ item, item ∈ l → key item ≤ key best.
Proof.
  intros (i & Hi & Hmax & _). split; [by eapply list_elem_of_lookup_2|done].
Qed.

Lemma fmap_NoDup_inj {A B} (f : A → B) (l : list A) (x y : A) :
  NoDup (f <$> l) → x ∈ l → y ∈ l → f x = f y → x = y.
Proof.
  induction l as [|a l IH]; simpl; [by intros _ ?%elem_of_nil|].
  rewrite NoDup_cons. intros [Ha Hl] Hx Hy Hf.
  apply elem_of_cons in Hx as [->|Hx]; apply elem_of_cons in Hy as [->|Hy].
  - done.
  - destruct Ha. rewrite Hf. by apply list_elem_of_fmap_2.
  - destruct Ha. rewrite <- Hf. by apply list_elem_of_fmap_2.
  - by apply IH.
Qed.

Section Props.
Context {image : Type}.
Variable cvtColor_gray : image → image.
Variable crop : image → rect → image.
Variable resize : image → Z * Z → image.

(** X16. [detect_face] returns a face and a box together or neither: the
    result is [(None, None)] exactly when there is no frame or the cascade
    reports nothing, and otherwise both components are present and the box is
    one of the rectangles the cascade reported for this frame. *)
Theorem detect_face_pair (detectMultiScale : image → list rect) (frame : option image) :
  let result := detect_face cvtColor_gray detectMultiScale crop resize frame in
  (result = (None, None) ↔
     frame = None ∨ ∃ img, frame = Some img ∧ detectMultiScale (cvtColor_gray img) = []) ∧
  (result ≠ (None, None) →
     ∃ img bbox, frame = Some img ∧
       bbox ∈ detectMultiScale (cvtColor_gray img) ∧
       result = (Some (resize (crop img bbox) (160, 160)), Some bbox)).
Proof.
  cbn zeta. unfold detect_face. destruct frame as [img|].
  - destruct (detectMultiScale (cvtColor_gray img)) as [|first others] eqn:Hfaces.
    + split; [|done]. split; [|done]. intros _. right. by exists img.
    + split.
      * split; [done|]. intros [?|(img' & [= <-] & Hnil)]; [done|congruence].
      * intros _. exists img, (max_from area_key first others).
        split_and!; [done| |done].
        rewrite Hfaces.
        by destruct (first_largest_elem _ _ _ (max_from_elem area_key first others)).
  - split; [|done]. split; [by left|done].
Qed.

(** X17. When no two candidates have the same area (and the areas are
    numbers that [int32] holds), the face that [detect_face] picks does not
    depend on the order in which the cascade reports the candidates. *)
Theorem detect_face_order (detect1 detect2 : image → list rect) (img : image) :
  detect1 (cvtColor_gray img) ≡ₚ detect2 (cvtColor_gray img) →
  Forall fits (detect1 (cvtColor_gray img)) →
  NoDup (area <$> detect1 (cvtColor_gray img)) →
  detect_face cvtColor_gray detect1 crop resize (Some img)
  = detect_face cvtColor_gray detect2 crop resize (Some img).
Proof.
  intros Hperm Hfits Hdistinct. unfold detect_face.
  destruct (detect1 (cvtColor_gray img)) as [|f1 o1] eqn:H1;
    destruct (detect2 (cvtColor_gray img)) as [|f2 o2] eqn:H2.
  - done.
  - by apply Permutation_nil_cons in Hperm.
  - symmetry in Hperm. by apply Permutation_nil_cons in Hperm.
  - destruct (first_largest_elem _ _ _ (max_from_elem area_key f1 o1)) as [Hin1 Hmax1].
    destruct (first_largest_elem _ _ _ (max_from_elem area_key f2 o2)) as [Hin2 Hmax2].
    assert (Hin2' : max_from area_key f2 o2 ∈ f1 :: o1) by by rewrite Hperm.
    assert (Hin1' : max_from area_key f1 o1 ∈ f2 :: o2) by by rewrite <- Hperm.
    rewrite Forall_forall in Hfits.
    assert (Heq : max_from area_key f1 o1 = max_from area_key f2 o2).
    { apply (fmap_NoDup_inj area (f1 :: o1)); [done..|].
      rewrite <- !area_key_fits by auto.
      specialize (Hmax1 _ Hin2'). specialize (Hmax2 _ Hin1'). lia. }
    by rewrite Heq.
Qed.

End Props.

(** *** On concrete inputs *)

Lemma detect_face_pair_witness :
  ∃ img bbox, Some two_faces = Some img ∧ bbox ∈ img ∧
    detect_face (λ img, img) (λ img, img) (λ _ r, [r]) (λ img _, img) (Some two_faces)
    = (Some [bbox], Some bbox).
Proof.
  apply (proj2 (detect_face_pair (λ img, img) (λ _ r, [r]) (λ img _, img)
                  (λ img, img) (Some two_faces))).
  discriminate.
Defined.

Lemma detect_face_order_witness :
  detect_face (λ img, img) (λ img, img) (λ _ r, [r]) (λ img _, img) (Some two_faces)
  = detect_face (λ img, img) (λ img, reverse img) (λ _ r, [r]) (λ img _, img)
      (Some two_faces).
Proof.
  apply (detect_face_order (λ img, img) (λ _ r, [r]) (λ img _, img)
           (λ img, img) (λ img, reverse img) two_faces).
  - apply Permutation_swap.
  - exact two_faces_fit.
  - vm_compute. repeat constructor; compute; intros H;
      repeat (apply elem_of_cons in H as [H|H]; [discriminate|]); by apply elem_of_nil in H.
Defined.

End FaceDetectorProps.

(** ** The embedding generator *)

Module EmbedderProps.
Import Embedder.

Lemma positive_or_pos d fallback z :
  0 < fallback → positive_or d fallback = Some z → 0 < z.
Proof.
  intros Hf. destruct d as [n| |]; simpl; [|done|done].
  intros [= <-]. destruct (0 <? n) eqn:Hn; [by apply Z.ltb_lt|done].
Qed.

(** X18. Every [FaceEmbedder] that was constructed has a positive expected
    height and width, whatever shape the model declares; so the size passed
    to [cv2.resize] in [preprocess_face] is always positive. *)
Theorem init_positive_size (session : option (list dim)) (c : config) :
  init session = Some c → 0 < expected_height c ∧ 0 < expected_width c.
Proof.
  unfold init. destruct session as [shape|]; [|done]. simpl.
  unfold detect_format. case_bool_decide; [|by intros [= <-]].
  destruct shape as [|d0 [|d1 [|d2 [|d3 [|]]]]]; try done.
  destruct (is_channels d1).
  - destruct (positive_or d2 368) as [h|] eqn:Hh; [|done].
    destruct (positive_or d3 368) as [w|] eqn:Hw; [|done]. simpl. intros [= <-]. simpl.
    split; eapply positive_or_pos; try eassumption; lia.
  - destruct (positive_or d1 160) as [h|] eqn:Hh; [|done].
    destruct (positive_or d2 160) as [w|] eqn:Hw; [|done]. simpl. intros [= <-]. simpl.
    split; eapply positive_or_pos; try eassumption; lia.
Qed.

(** The two dimensions that [__init__] reads as height and width. *)
Definition spatial (input_shape : list dim) : list dim :=
  match input_shape with
  | [_; d1; d2; d3] => if is_channels d1 then [d2; d3] else [d1; d2]
  | _ => []
  end.

Definition is_known (d : dim) : bool :=
  match d with Known _ => true | Symbolic _ | Unknown => false end.

(** X19. Construction succeeds exactly when the session could be created
    and, for a shape of four dimensions, the two dimensions read as height
    and width are integers.  A model that declares a symbolic or unknown
    height or width is not loaded: the fallback sizes 368 and 160 are taken
    for integers that are not positive only. *)
Theorem init_dynamic_shape (session : option (list dim)) :
  is_Some (init session) ↔
  ∃ input_shape, session = Some input_shape ∧ forallb is_known (spatial input_shape) = true.
Proof.
  unfold init. destruct session as [shape|]; simpl.
  - unfold detect_format, spatial. split.
    + intros Hsome. exists shape. split; [done|].
      destruct shape as [|d0 [|d1 [|d2 [|d3 [|]]]]]; try done.
      revert Hsome. rewrite bool_decide_eq_true_2 by done.
      destruct (is_channels d1).
      * destruct d2, d3; simpl; by intros [? ?].
      * destruct d1, d2; simpl; by intros [? ?].
    + intros (shape' & [= <-] & Hknown).
      destruct shape as [|d0 [|d1 [|d2 [|d3 [|]]]]]; try done.
      rewrite bool_decide_eq_true_2 by done.
      destruct (is_channels d1).
      * destruct d2, d3; simpl in *; try done.
      * destruct d1, d2; simpl in *; try done.
  - split; [by intros [? ?]|by intros (? & ? & ?)].
Qed.

Lemma init_positive_size_witness :
  0 < expected_height (mkConfig CHW 160 368) ∧ 0 < expected_width (mkConfig CHW 160 368).
Proof.
  exact (init_positive_size (Some [Symbolic "batch"; Known 3; Known 160; Known (-1)])
           (mkConfig CHW 160 368) eq_refl).
Defined.

Example init_symbolic_size :
  init (Some [Symbolic "batch"; Known 3; Symbolic "height"; Symbolic "width"]) = None.
Proof. reflexivity. Qed.

Example init_channels_last :
  init (Some [Unknown; Known 160; Known 160; Known 3]) = Some (mkConfig HWC 160 160).
Proof. reflexivity. Qed.


Lemma nan_leb (x : float) : (nan <=? x)%float = false.
Proof. rewrite leb_spec. reflexivity. Qed.

Section InferenceFacts.
Context {image tensor : Type}.
Variable preprocess_face : image → outcome tensor.
Variable session_run : tensor → outcome (list float).
Variable linalg_norm : list float → float.
Variable true_divide : float → float → float.

Abbreviation get_embedding :=
  (get_embedding preprocess_face session_run linalg_norm true_divide).

(** The norm of [v] is 1 within [tol]. *)
Definition unit_norm (tol : float) (v : list float) : bool :=
  (abs (linalg_norm v - 1) <=? tol)%float.

(** C8, at an image on which the model outputs the zero vector.  The norm
    of the output is 0, every entry is divided by it, and 0 / 0 is a NaN:
    [get_embedding] returns, without an exception, a vector of NaNs, whose
    norm is a NaN and within no tolerance of 1. *)
Theorem get_embedding_zero_output (face : image) (x : tensor) (n : nat) :
  preprocess_face face = Return x →
  session_run x = Return (replicate n 0%float) →
  linalg_norm (replicate n 0%float) = 0%float →
  true_divide 0%float 0%float = nan →
  linalg_norm (replicate n nan) = nan →
  get_embedding (Some face) = Return (replicate n nan) ∧
  ∀ tol, unit_norm tol (replicate n nan) = false.
Proof.
  intros Hpre Hrun Hzero Hdiv Hnan. split.
  - unfold Embedder.get_embedding. rewrite Hpre, Hrun, Hzero. f_equal.
    rewrite fmap_replicate. by rewrite Hdiv.
  - intros tol. unfold unit_norm. rewrite Hnan.
    change (abs (nan - 1))%float with nan. apply nan_leb.
Qed.

End InferenceFacts.

(** Arithmetic in binary64: the norm is the square root of the sum of the
    squares. *)
Definition norm64 (v : list float) : float :=
  sqrt (foldr (λ x acc, x * x + acc) 0 v)%float.

(** A model that answers the zero vector of dimension 4 on every input. *)
Definition silent (x : unit) : outcome (list float) :=
  Return (replicate 4 0%float).

Lemma get_embedding_zero_output_witness :
  Embedder.get_embedding (λ _ : unit, Return ()) silent norm64 PrimFloat.div (Some ())
  = Return [nan; nan; nan; nan] ∧
  ∀ tol, unit_norm norm64 tol [nan; nan; nan; nan] = false.
Proof.
  exact (get_embedding_zero_output (λ _ : unit, Return ()) silent norm64 PrimFloat.div
           () () 4 eq_refl eq_refl eq_refl eq_refl eq_refl).
Defined.

(** With an output that is not zero the entries are divided by the norm. *)
Example get_embedding_three_four :
  Embedder.get_embedding (λ _ : unit, Return ())
    (λ _ : unit, Return [3%float; 4%float]) norm64 PrimFloat.div (Some ())
  = Return [(3 / 5)%float; (4 / 5)%float].
Proof. reflexivity. Qed.

Example get_embedding_without_image :
  Embedder.get_embedding (λ _ : unit, Return ()) silent norm64 PrimFloat.div None
  = Raise (ValueError "Face image is None").
Proof. reflexivity. Qed.

End EmbedderProps.

(** ** The pages *)

Module AppProps.
Import Ledger LedgerFacts LedgerProps Database DatabaseFacts RegistryFacts PyStrFacts App.

Section PagesProps.
Context {value : Type}.
Variable infer : list string → list (option value).

(** X20. The quiet period.  While the matched name is the one last marked
    and no more than five seconds have passed since (or no time was ever
    recorded), a frame does not call [mark_attendance]: the ledger and the
    session state are untouched and the page says "already marked in this
    session". *)
Theorem on_match_quiet (name : string) (time_check time_mark : float) (now : clock)
    (ss : session_state) (st : ledger) :
  PyStr.truthy name = true →
  last_match ss = Some name →
  (last_match_time ss = None ∨
   ∃ t0, last_match_time ss = Some t0 ∧ (5 <? time_check - t0)%float = false) →
  on_match infer (Some name) time_check time_mark now ss st = (AlreadyInSession name, ss, st).
Proof.
  intros Hname Hlast Htime. unfold on_match, retrigger. rewrite Hname.
  rewrite bool_decide_eq_true_2 by done. cbn [negb orb].
  destruct Htime as [->|(t0 & -> & ->)]; [done|]. by rewrite andb_false_r.
Qed.

Lemma on_match_ledger matched time_check time_mark now ss st :
  (on_match infer matched time_check time_mark now ss st).2 = st ∨
  (on_match infer matched time_check time_mark now ss st).2
  = (mark_attendance infer matched now st).2.
Proof.
  unfold on_match. destruct matched as [name|]; [|by left].
  destruct (PyStr.truthy name); [|by left].
  destruct (retrigger name ss time_check); [|by left]. right.
  by destruct (mark_attendance infer (Some name) now st) as [[[]|] st'].
Qed.

(** The frames whose matched name and date are read back as text. *)
Definition textual_frame (f : frame) : Prop :=
  textual_call infer (Mark (matched_name f) (now f)).

Definition textual_event (ev : event) : Prop :=
  match ev with
  | Called c => textual_call infer c
  | Restarted => True
  end.

Lemma on_frame_step s f :
  ∃ evs, (on_frame infer s f).2 = run_events infer evs s.2 ∧
         (textual_frame f → Forall textual_event evs).
Proof.
  destruct s as [ss st]. unfold on_frame. cbn [fst snd].
  destruct (on_match_ledger (matched_name f) (time_check f) (time_mark f) (now f) ss st)
    as [Heq|Heq];
    destruct (on_match infer (matched_name f) (time_check f) (time_mark f) (now f) ss st)
      as [[fb ss'] st'] eqn:Hm; cbn [snd] in *; subst st'.
  - by exists [].
  - exists [Called (Mark (matched_name f) (now f))]. split; [done|].
    intros Hf. by apply Forall_singleton.
Qed.

Lemma on_frames_events fs s :
  ∃ evs, (on_frames infer fs s).2 = run_events infer evs s.2 ∧
         (Forall textual_frame fs → Forall textual_event evs).
Proof.
  unfold on_frames. induction fs as [|f fs IH] using rev_ind; [by exists []|].
  rewrite foldl_app. cbn [foldl]. destruct IH as (evs & IH & Ht).
  destruct (on_frame_step (foldl (on_frame infer) s fs) f) as (evs' & Hstep & Ht').
  exists (evs ++ evs'). split.
  - rewrite Hstep, IH. unfold run_events. by rewrite foldl_app.
  - intros [Hfs Hf]%Forall_app. rewrite Forall_singleton in Hf.
    apply Forall_app. split; [by apply Ht|by apply Ht'].
Qed.

(** X21. Whatever the scanning loop sees, frame after frame (any match
    results, any timing, the same person again after five seconds), the
    ledger loses no record: the rows it had remain its first rows.  And when
    the names matched and the dates are read back as text by [read_csv], it
    keeps at most one record per identity and date. *)
Theorem on_frames_keep_ledger (fs : list frame) (ss : session_state) (st : ledger) :
  rows_of (attendance_csv st) `prefix_of`
    rows_of (attendance_csv (on_frames infer fs (ss, st)).2) ∧
  (Forall textual_frame fs →
   unique_per_day (attendance_csv st) →
   unique_per_day (attendance_csv (on_frames infer fs (ss, st)).2)).
Proof.
  destruct (on_frames_events fs (ss, st)) as (evs & -> & Ht). cbn [snd].
  split; [apply ledger_append_only_aux|].
  intros Hfs Hu. apply run_events_unique; [by apply Ht|done].
Qed.

(** X22. The page reports what happened.  "Attendance marked" is shown
    exactly when the frame wrote a record, and then [last_match] is the name
    and [last_match_time] the time read after the write; with any other
    message the file is as it was. *)
Theorem on_match_feedback (matched : option string) (time_check time_mark : float)
    (now : clock) (ss : session_state) (st : ledger) :
  let '(fb, ss', st') := on_match infer matched time_check time_mark now ss st in
  ((∃ name, fb = MarkedFor name) ↔ attendance_csv st' ≠ attendance_csv st) ∧
  (∀ name, fb = MarkedFor name →
     matched = Some name ∧ ss' = mkSession (Some name) (Some time_mark) ∧
     rows_of (attendance_csv st') =
       rows_of (attendance_csv st)
         ++ [mkRecord (PyStr.strip name) (today now) (current_time now)]).
Proof.
  unfold on_match. destruct matched as [name|].
  2:{ split; [split; [by intros [? ?]|done]|done]. }
  destruct (PyStr.truthy name).
  2:{ split; [split; [by intros [? ?]|done]|done]. }
  destruct (retrigger name ss time_check).
  2:{ split; [split; [by intros [? ?]|done]|done]. }
  destruct (mark_attendance_cases infer (Some name) now st)
    as [(o & -> & Ho)|(raw & [= <-] & _ & _ & _ & _ & ->)].
  - destruct o as [[]|e]; [done| |]; (split; [split; [by intros [? ?]|done]|done]).
  - cbn [attendance_csv]. split.
    + split; [intros _; apply append_row_changes|by exists name].
    + intros name' [= <-]. split_and!; [done|done|apply rows_of_append_row].
Qed.

End PagesProps.

Section Registration.
Context {embedding : Type}.

(** X24. Registration from the page.  A blank name changes nothing and asks
    for a name; [save_embedding] is never reached with a name it rejects.
    With a name that is not blank and an embedding, when the write
    completes, the page reports the trimmed name and [get_embedding] then
    returns the embedding for the name as typed.  When the write fails the
    page reports a failure: the file is as before if it could not be
    opened, and is left unreadable if the dump failed. *)
Theorem register_face_outcome (name : string) (e : embedding)
    (w : env embedding) (self self' : db embedding) :
  (PyStr.strip name = EmptyString →
     ∀ embedding_, register_face name embedding_ w self = (PleaseEnterName, w, self)) ∧
  (PyStr.strip name ≠ EmptyString → on_write w = WriteOk →
     (register_face name (Return e) w self).1.1 = Registered (PyStr.strip name) ∧
     (get_embedding name (register_face name (Return e) w self).1.2 self').1.1 = Some e) ∧
  (PyStr.strip name ≠ EmptyString → on_write w = OpenFails →
     (register_face name (Return e) w self).1.1 = FailedToRegister ∧
     embeddings_path (register_face name (Return e) w self).1.2 = embeddings_path w) ∧
  (∀ residue, PyStr.strip name ≠ EmptyString → on_write w = DumpFails residue →
     (register_face name (Return e) w self).1.1 = FailedToRegister ∧
     embeddings_path (register_face name (Return e) w self).1.2 = Unreadable residue).
Proof.
  assert (Hname : PyStr.strip name ≠ EmptyString →
            PyStr.truthy name && PyStr.truthy (PyStr.strip name) = true).
  { intros Hblank. destruct name; [done|]. by destruct (PyStr.strip (String a name)). }
  unfold register_face. split_and!.
  - intros Hblank embedding_. rewrite Hblank. by rewrite andb_false_r.
  - intros Hblank Hw.
    rewrite Hname by done. rewrite save_embedding_eq by by rewrite strip_idem.
    cbn zeta. rewrite Hw. cbn [fst snd]. split; [done|].
    rewrite get_embedding_eq. cbn [fst]. rewrite on_disk_after_dump, Hw.
    rewrite strip_idem. apply get_set_same.
  - intros Hblank Hw.
    rewrite Hname by done. rewrite save_embedding_eq by by rewrite strip_idem.
    cbn zeta. unfold after_dump. by rewrite Hw.
  - intros residue Hblank Hw.
    rewrite Hname by done. rewrite save_embedding_eq by by rewrite strip_idem.
    cbn zeta. unfold after_dump. by rewrite Hw.
Qed.

End Registration.

(** *** On concrete inputs *)

Definition just_marked : session_state := mkSession (Some "Alice") (Some 100%float).

Lemma on_match_quiet_witness :
  on_match reader (Some "Alice") 103%float 104%float ten just_marked after_restart
  = (AlreadyInSession "Alice", just_marked, after_restart).
Proof.
  apply on_match_quiet; [reflexivity|reflexivity|].
  right. exists 100%float. split; reflexivity.
Defined.

Lemma on_match_feedback_witness :
  Some "Bob" = Some "Bob" ∧
  (on_match reader (Some "Bob") 109%float 110%float ten just_marked after_restart).1.2
  = mkSession (Some "Bob") (Some 110%float) ∧
  rows_of (attendance_csv
             (on_match reader (Some "Bob") 109%float 110%float ten just_marked
                after_restart).2)
  = rows_of (attendance_csv after_restart)
      ++ [mkRecord (PyStr.strip "Bob") (today ten) (current_time ten)].
Proof.
  exact (proj2 (on_match_feedback reader (Some "Bob") 109%float 110%float ten just_marked
                  after_restart) "Bob" eq_refl).
Defined.

Definition busy_minute : list frame :=
  [mkFrame (Some "Alice") 100%float 100%float nine;
   mkFrame (Some "Alice") 106%float 106%float ten;
   mkFrame None 107%float 107%float ten;
   mkFrame (Some "Alice") 108%float 108%float ten;
   mkFrame (Some "Bob") 109%float 109%float ten].

Lemma busy_minute_textual : Forall (textual_frame reader) busy_minute.
Proof.
  repeat constructor;
    first [exact alice_textual | exact bob_textual | exact first_day_textual].
Qed.

Lemma on_frames_keep_ledger_witness :
  unique_per_day
    (attendance_csv (on_frames reader busy_minute (mkSession None None, fresh)).2).
Proof.
  assert (Hfresh : unique_per_day (attendance_csv fresh)) by apply NoDup_nil_2.
  exact (proj2 (on_frames_keep_ledger reader busy_minute (mkSession None None) fresh)
           busy_minute_textual Hfresh).
Defined.

Example busy_minute_rows :
  rows_of (attendance_csv (on_frames reader busy_minute (mkSession None None, fresh)).2)
  = [alice_at_nine; mkRecord "Bob" "2024-01-01" "10:00:00"].
Proof. reflexivity. Qed.

Lemma register_face_outcome_witness :
  (register_face " Ann " (Return 2%float) bob_only (mkDb [])).1.1 = Registered "Ann" ∧
  (get_embedding " Ann " (register_face " Ann " (Return 2%float) bob_only (mkDb [])).1.2
     (mkDb [])).1.1 = Some 2%float.
Proof.
  apply (proj1 (proj2 (register_face_outcome " Ann " 2%float bob_only (mkDb []) (mkDb [])))).
  - vm_compute; discriminate.
  - reflexivity.
Defined.

End AppProps.
